(** * price_monitor.py: the price extractor and the product scrapers

    A shallow embedding of [PriceMonitor] (src/price_monitor.py) and the
    properties of its price extraction and product normalisation pipeline.

    Conventions of the model.
    - A Python [str] is a [string]; a character is its code point, held in
      an [ascii] (code points 0..255).  On that range the classes [\d] and
      [\s] of [re] and [str.strip] are the ones written out below.
    - A Python [float] that was produced by [float(text)] on a plain
      decimal literal is the double nearest to the literal's value.  It is
      represented by that value, a canonical rational [Qc].  Rounding to
      nearest is monotone, and it is one-to-one on decimals of at most five
      significant digits, so [max], [min], [==] and truth tests on such
      floats agree with the same operations on their rationals.
    - [Optional[T]] is [option T]; a call that may raise returns an
      [outcome]. *)

From Stdlib Require Import String Ascii List Bool Arith ZArith Lia.
From Stdlib Require Import QArith Qcanon Qround Qabs Permutation.
Import ListNotations.

Set Implicit Arguments.
Local Close Scope Qc_scope.
Local Close Scope Q_scope.
Local Open Scope string_scope.
Local Open Scope list_scope.

(* ================================================================== *)
(** * Characters and strings *)

Definition text := list ascii.

Definition code (c : ascii) : nat := nat_of_ascii c.

(** [\d] of [re]: the decimal digits. *)
Definition is_digit (c : ascii) : bool :=
  (48 <=? code c)%nat && (code c <=? 57)%nat.

(** [\s] of [re] and the blanks of [str.strip]/[str.isspace]. *)
Definition is_space (c : ascii) : bool :=
  let n := code c in
  ((9 <=? n) && (n <=? 13) || (28 <=? n) && (n <=? 32)
   || (n =? 133) || (n =? 160))%nat.

Definition digit_value (c : ascii) : Z := (Z.of_nat (code c) - 48)%Z.

(** [str.lower] on one character, as [re.I] folds case. *)
Definition lower (c : ascii) : ascii :=
  if ((65 <=? code c) && (code c <=? 90))%nat
  then ascii_of_nat (code c + 32) else c.

(** [s.replace(old, '')] for a one-character [old]. *)
Definition remove_char (old : ascii) (s : text) : text :=
  filter (fun c => negb (Ascii.eqb c old)) s.

(* ================================================================== *)
(** * Regular expressions: a backtracking matcher in the style of [re] *)

Module Re.

(** The constructs that the patterns of the program use.  [Group] is the
    capturing group; a non-capturing group [(?:...)] is plain nesting. *)
Inductive regex : Type :=
| Eps
| Chr (p : ascii -> bool)
| Seq (r1 r2 : regex)
| Alt (r1 r2 : regex)
| Opt (r : regex)
| Star (r : regex)
| Rep (lo hi : nat) (r : regex)
| Group (r : regex).

(** A literal character, and one under [re.I]. *)
Definition lit (c : ascii) : regex := Chr (Ascii.eqb c).
Definition lit_i (c : ascii) : regex :=
  Chr (fun x => Ascii.eqb (lower x) (lower c)).

(** A literal word under [re.I]. *)
Fixpoint word_i (w : text) : regex :=
  match w with
  | [] => Eps
  | c :: w' => Seq (lit_i c) (word_i w')
  end.

Section Exec.
Variable R : Type.

(** A continuation receives the rest of the subject and the text of
    group 1, when the group has taken part in the match. *)
Definition cont := text -> option text -> option R.

Definition or_else (a b : option R) : option R :=
  match a with Some x => Some x | None => b end.

Section Loops.
(** [step] runs the body of a quantifier once. *)
Variable step : text -> option text -> cont -> option R.
Variable k : cont.

(** [r*]: one more iteration first, then the rest of the pattern.
    An iteration that consumes nothing ends the repetition. *)
Fixpoint star_loop (fuel : nat) (s : text) (cap : option text)
  : option R :=
  match fuel with
  | O => k s cap
  | S fuel' =>
      or_else
        (step s cap
           (fun s1 c1 =>
              if (length s1 <? length s)%nat
              then star_loop fuel' s1 c1 else None))
        (k s cap)
  end.

(** [r{lo,hi}]: at most [hi] iterations, at least [lo]. *)
Fixpoint rep_loop (lo hi : nat) (s : text) (cap : option text)
  : option R :=
  match hi with
  | O => match lo with O => k s cap | S _ => None end
  | S hi' =>
      or_else
        (step s cap (rep_loop (pred lo) hi'))
        (match lo with O => k s cap | S _ => None end)
  end.
End Loops.

(** Greedy matching with backtracking: every quantifier first tries to
    take one more iteration and falls back to stopping. *)
Fixpoint exec (r : regex) (s : text) (cap : option text) (k : cont)
  {struct r} : option R :=
  match r with
  | Eps => k s cap
  | Chr p =>
      match s with
      | c :: s' => if p c then k s' cap else None
      | [] => None
      end
  | Seq r1 r2 => exec r1 s cap (fun s1 c1 => exec r2 s1 c1 k)
  | Alt r1 r2 => or_else (exec r1 s cap k) (exec r2 s cap k)
  | Opt r1 => or_else (exec r1 s cap k) (k s cap)
  | Star r1 => star_loop (exec r1) k (length s) s cap
  | Rep lo hi r1 => rep_loop (exec r1) k lo hi s cap
  | Group r1 =>
      exec r1 s cap
        (fun s1 _ => k s1 (Some (firstn (length s - length s1) s)))
  end.
End Exec.

(** [pattern.search(s)]: the leftmost start at which the pattern matches;
    the result is the match's group 1 ([None] inside when the group did
    not take part), or [None] when there is no match at all. *)
Fixpoint search (r : regex) (s : text) : option (option text) :=
  match exec r s None (fun _ cap => Some cap) with
  | Some m => Some m
  | None =>
      match s with
      | [] => None
      | _ :: s' => search r s'
      end
  end.

(** The language of a pattern, without regard to priorities. *)
Fixpoint power (L : text -> Prop) (n : nat) (w : text) : Prop :=
  match n with
  | O => w = []
  | S n' => exists w1 w2, w = w1 ++ w2 /\ L w1 /\ power L n' w2
  end.

Fixpoint lang (r : regex) (w : text) : Prop :=
  match r with
  | Eps => w = []
  | Chr p => exists c, w = [c] /\ p c = true
  | Seq r1 r2 => exists w1 w2, w = w1 ++ w2 /\ lang r1 w1 /\ lang r2 w2
  | Alt r1 r2 => lang r1 w \/ lang r2 w
  | Opt r1 => w = [] \/ lang r1 w
  | Star r1 => exists n, power (lang r1) n w
  | Rep lo hi r1 => exists n, (lo <= n <= hi)%nat /\ power (lang r1) n w
  | Group r1 => lang r1 w
  end.

End Re.

Import Re.

(* ================================================================== *)
(** * Results of calls that may raise *)

(** The exceptions of the model are instances of [Exception], the class
    that the handlers of the program name. *)
Inductive exn : Type :=
| ValueError
| FileNotFoundError
| AttributeError
| HTTPError (status_code : nat)
| OtherError (what : string).

Inductive outcome (A : Type) : Type :=
| Ret (a : A)
| Raise (e : exn).
Arguments Raise {A} e.

(* ================================================================== *)
(** * The price extractor *)

(** The float denoted by a fraction; reducing first gives equal floats
    the same representation. *)
Definition to_float (q : Q) : Qc := Q2Qc (Qred q).

Definition cents (n : Z) : Qc := to_float (Qmake n 100).

(** [int(ds)] for a run of digits, most significant first. *)
Definition digits_value (ds : text) : Z :=
  fold_left (fun acc c => 10 * acc + digit_value c)%Z ds 0%Z.

Fixpoint split_at_dot (s : text) : text * option text :=
  match s with
  | [] => ([], None)
  | c :: s' =>
      if Ascii.eqb c "."
      then ([], Some s')
      else let '(a, b) := split_at_dot s' in (c :: a, b)
  end.

(** [float(s)] on the plain decimal literals: digits, then possibly a
    point and more digits, with a digit on at least one side.  The
    other spellings that Python accepts (signs, exponents, blanks,
    underscores, inf and nan) are not modelled and answer [ValueError];
    [extract_price] never passes one, see [extract_price_range]. *)
Definition float (s : text) : outcome Qc :=
  let '(ip, fp) := split_at_dot s in
  let fp' := match fp with Some f => f | None => [] end in
  if forallb is_digit ip && forallb is_digit fp'
     && negb ((length ip =? 0)%nat && (length fp' =? 0)%nat)
  then
    let scale := (10 ^ Z.of_nat (length fp'))%Z in
    Ret (to_float (Qmake (digits_value ip * scale + digits_value fp')
                         (Z.to_pos scale)))
  else Raise ValueError.

(** The group of the price pattern,
    [\d{1,3}(?:,\d{3})*(?:\.\d{2})?]. *)
Definition price_number : regex :=
  Seq (Rep 1 3 (Chr is_digit))
      (Seq (Star (Seq (lit ",") (Rep 3 3 (Chr is_digit))))
           (Opt (Seq (lit ".") (Rep 2 2 (Chr is_digit))))).

(** [r'[\$]?\s*(\d{1,3}(?:,\d{3})*(?:\.\d{2})?)'] *)
Definition price_re : regex :=
  Seq (Seq (Opt (lit "$")) (Star (Chr is_space))) (Group price_number).

(** [PriceMonitor.extract_price]. *)
Definition extract_price (price_text : string) : outcome (option Qc) :=
  let price_text := list_ascii_of_string price_text in
  if (length price_text =? 0)%nat then Ret None
  else
    match search price_re (remove_char "," price_text) with
    | Some price_match =>
        match price_match with
        | Some group1 =>
            match float (remove_char "," group1) with
            | Ret x => Ret (Some x)
            | Raise e => Raise e
            end
        | None => Raise AttributeError
        end
    | None => Ret None
    end.

(* ================================================================== *)
(** * The monitor's state and its commands *)

(** One entry of [self.products]: the dict with the keys ['Product'],
    ['Brand'], ['Category'], ['MSRP'] and ['Sale Price']. *)
Record ProductRecord : Type := {
  Product : string;
  Brand : string;
  Category : string;
  MSRP : option Qc;
  Sale_Price : option Qc
}.

(** A method of [PriceMonitor] runs on [self.products] and either returns
    or raises; what it appended before raising stays appended. *)
Definition M (A : Type) : Type :=
  list ProductRecord -> outcome A * list ProductRecord.

Definition ret {A} (a : A) : M A := fun st => (Ret a, st).

Definition bind {A B} (m : M A) (f : A -> M B) : M B :=
  fun st =>
    match m st with
    | (Ret a, st') => f a st'
    | (Raise e, st') => (Raise e, st')
    end.

Definition lift {A} (o : outcome A) : M A := fun st => (o, st).

(** [try: body / except Exception: handler]. *)
Definition try_except {A} (body : M A) (handler : exn -> M A) : M A :=
  fun st =>
    match body st with
    | (Ret a, st') => (Ret a, st')
    | (Raise e, st') => handler e st'
    end.

(** [self.products.append(p)] and [self.products.extend(ps)]. *)
Definition append (p : ProductRecord) : M unit :=
  fun st => (Ret tt, st ++ [p]).
Definition extend (ps : list ProductRecord) : M unit :=
  fun st => (Ret tt, st ++ ps).

Declare Scope monitor_scope.
Delimit Scope monitor_scope with monitor.
Notation "x <- m ;; k" := (bind m (fun x => k))
  (at level 61, m at next level, right associativity) : monitor_scope.
Notation "m ;;; k" := (bind m (fun _ => k))
  (at level 61, right associativity) : monitor_scope.
Local Open Scope monitor_scope.

(** [for x in xs: body(x)]; a [continue] is the body returning early. *)
Fixpoint for_each {X} (xs : list X) (body : X -> M unit) : M unit :=
  match xs with
  | [] => ret tt
  | x :: xs' => body x ;;; for_each xs' body
  end.

(* ================================================================== *)
(** * The document interface *)

(** The part of BeautifulSoup that the scrapers call on a [Tag] (a parsed
    page is a [Tag] too).  The class filter is always a compiled pattern;
    [find] is also called with a tag name alone. *)
Class Bs4 (tag : Type) : Type := {
  find_all : tag -> list string -> regex -> outcome (list tag);
  find : tag -> list string -> option regex -> outcome (option tag);
  (** [get_text(strip=True)] *)
  get_text : tag -> outcome string
}.

(** [re.compile(r'product|item|card', re.I)] and the two others. *)
Definition word (w : string) : regex := word_i (list_ascii_of_string w).

Definition listing_class : regex :=
  Alt (word "product") (Alt (word "item") (word "card")).
Definition name_class : regex :=
  Alt (word "title") (Alt (word "name") (word "product")).
Definition price_class : regex := word "price".

(** Truth value of an [Optional[float]]: [None] and [0.0] are false. *)
Definition truthy (price : option Qc) : bool :=
  match price with
  | Some x => negb (Qc_eq_bool x (cents 0))
  | None => false
  end.

(** [max(xs)] and [min(xs)]: the first greatest and the first least
    element; [ValueError] on an empty list. *)
Definition py_max (xs : list Qc) : outcome Qc :=
  match xs with
  | [] => Raise ValueError
  | x :: xs' =>
      Ret (fold_left
             (fun best y => match (y ?= best)%Qc with Gt => y | _ => best end)
             xs' x)
  end.

Definition py_min (xs : list Qc) : outcome Qc :=
  match xs with
  | [] => Raise ValueError
  | x :: xs' =>
      Ret (fold_left
             (fun best y => match (y ?= best)%Qc with Lt => y | _ => best end)
             xs' x)
  end.

(* ================================================================== *)
(** * Persistence *)

(** The files of the working directory, by name. *)
Definition files : Type := string -> option string.

Definition write (fs : files) (filename contents : string) : files :=
  fun name => if String.eqb name filename then Some contents else fs name.

Section Persistence.
(** [json.dump(products, f, indent=2)] and [json.load(f)], on lists of
    product dicts; a file that holds anything else is a decoding error
    here. *)
Variable json_dump : list ProductRecord -> string.
Variable json_load : string -> outcome (list ProductRecord).

(** [PriceMonitor.save_to_json]: the new contents of the directory. *)
Definition save_to_json (filename : string) (fs : files) : M files :=
  fun products => (Ret (write fs filename (json_dump products)), products).

(** [PriceMonitor.load_from_file]; both handlers only print. *)
Definition load_from_file (filename : string) (fs : files) : M unit :=
  try_except
    (match fs filename with
     | None => lift (Raise FileNotFoundError)
     | Some contents =>
         data <- lift (json_load contents) ;;
         extend data
     end)
    (fun e => match e with
              | FileNotFoundError => ret tt
              | _ => ret tt
              end).
End Persistence.

Section Scrapers.
Context {tag : Type} {soup_api : Bs4 tag}.

(** [session.get], [raise_for_status] and the parse, as one request:
    the page, or the exception that one of the three raised. *)
Variable http_get : string -> outcome tag.

(** [PriceMonitor.fetch_page].  The delay and the diagnostics on the
    error stream are left out; both handlers answer [None]. *)
Definition fetch_page (url : string) : option tag :=
  let url := if String.prefix "http" url then url
             else ("https://" ++ url)%string in
  match http_get url with
  | Ret soup => Some soup
  | Raise (HTTPError _) => None
  | Raise _ => None
  end.

(** The loop over [price_elems], lines 130-134; [prices] is the local
    list. *)
Fixpoint collect_prices (price_elems : list tag) (prices : list Qc)
  : M (list Qc) :=
  match price_elems with
  | [] => ret prices
  | price_elem :: rest =>
      price_text <- lift (get_text price_elem) ;;
      price <- lift (extract_price price_text) ;;
      match price with
      | Some x =>
          if truthy price then collect_prices rest (prices ++ [x])
          else collect_prices rest prices
      | None => collect_prices rest prices
      end
  end.

(** The body of the [try] of one listing, lines 116-146. *)
Definition listing_body (brand category : string) (product : tag)
  : M unit :=
  name_elem <- lift (find product ["h2"; "h3"; "h4"; "a"]
                       (Some name_class)) ;;
  name_elem <- match name_elem with
               | Some e => ret (Some e)
               | None => lift (find product ["a"] None)
               end ;;
  match name_elem with
  | None => ret tt
  | Some name_elem =>
      product_name <- lift (get_text name_elem) ;;
      price_elems <- lift (find_all product ["span"; "div"; "p"]
                             price_class) ;;
      prices <- collect_prices price_elems [] ;;
      match prices with
      | [] => ret tt
      | _ :: _ =>
          msrp <- lift (py_max prices) ;;
          sale_price <- lift (py_min prices) ;;
          append {| Product := product_name;
                    Brand := brand;
                    Category := category;
                    MSRP := Some (if (1 <? length prices)%nat
                                  then msrp else msrp);
                    Sale_Price := if (1 <? length prices)%nat
                                  then Some sale_price else None |}
      end
  end.

(** One turn of the loop over the listings, with its handler. *)
Definition scrape_listing (brand category : string) (product : tag)
  : M unit :=
  try_except (listing_body brand category product) (fun _ => ret tt).

(** One turn of the loop over [category_urls.items()], lines 106-148. *)
Definition scrape_category (brand : string) (entry : string * string)
  : M unit :=
  let '(category, url) := entry in
  match fetch_page url with
  | None => ret tt
  | Some soup =>
      products <- lift (find_all soup ["div"; "article"] listing_class) ;;
      for_each (firstn 10 products) (scrape_listing brand category)
  end.

(** The three scrapers have the same text up to the brand and the
    category map, which [scrape_site] takes as arguments. *)
Definition scrape_site (brand : string)
  (category_urls : list (string * string)) : M unit :=
  for_each category_urls (scrape_category brand).

Definition bowflex_urls : list (string * string) :=
  let base_url := "https://www.bowflex.com" in
  [ ("Treadmills", base_url ++ "/treadmills/");
    ("Indoor Cycling Bikes", base_url ++ "/bikes/");
    ("Home Gyms", base_url ++ "/strength/");
    ("Adjustable Dumbbells", base_url ++ "/selecttech/");
    ("Ellipticals and Max Trainer", base_url ++ "/max-trainer/") ]%string.

Definition horizon_urls : list (string * string) :=
  let base_url := "https://www.horizonfitness.com" in
  [ ("Treadmills", base_url ++ "/treadmills");
    ("Indoor Cycling Bikes", base_url ++ "/bikes");
    ("Ellipticals and Max Trainer", base_url ++ "/ellipticals") ]%string.

Definition schwinn_urls : list (string * string) :=
  let base_url := "https://www.schwinnfitness.com" in
  [ ("Treadmills", base_url ++ "/treadmills");
    ("Indoor Cycling Bikes", base_url ++ "/bikes");
    ("Ellipticals and Max Trainer", base_url ++ "/ellipticals") ]%string.

Definition scrape_bowflex : M unit := scrape_site "Bowflex" bowflex_urls.
Definition scrape_horizon : M unit :=
  scrape_site "Horizon Fitness" horizon_urls.
Definition scrape_schwinn : M unit := scrape_site "Schwinn" schwinn_urls.

(** [PriceMonitor.run], without its console messages. *)
Definition run (json_load : string -> outcome (list ProductRecord))
  (fs : files) (use_sample_data : bool) : M unit :=
  if use_sample_data
  then load_from_file json_load "sample_products.json" fs
  else scrape_bowflex ;;; scrape_horizon ;;; scrape_schwinn.
End Scrapers.

(* ================================================================== *)
(** * A document model for the interface *)

Module Dom.

(** A parsed document: text nodes and elements with their tag name, the
    values of their [class] attribute when they have one, and their
    children in document order. *)
#[warnings="-register-all"]
Inductive node : Type :=
| Text (s : string)
| Elem (name : string) (class_ : option (list string))
       (contents : list node).

(** [tag.descendants]: every node below, in document order. *)
Fixpoint descendants (n : node) : list node :=
  match n with
  | Text _ => []
  | Elem _ _ cs => flat_map (fun c => c :: descendants c) cs
  end.

Fixpoint lstrip (s : text) : text :=
  match s with
  | c :: s' => if is_space c then lstrip s' else s
  | [] => []
  end.

(** [str.strip()] *)
Definition strip (s : text) : text := rev (lstrip (rev (lstrip s))).

(** [get_text(strip=True)]: the stripped text nodes below, the empty
    ones dropped, joined without a separator. *)
Definition get_text (n : node) : string :=
  string_of_list_ascii
    (concat
       (filter (fun t => negb (length t =? 0)%nat)
          (flat_map
             (fun d => match d with
                       | Text t => [strip (list_ascii_of_string t)]
                       | Elem _ _ _ => []
                       end)
             (descendants n)))).

Definition has_name (names : list string) (n : node) : bool :=
  match n with
  | Elem nm _ _ => existsb (String.eqb nm) names
  | Text _ => false
  end.

Definition found (r : regex) (s : string) : bool :=
  match search r (list_ascii_of_string s) with
  | Some _ => true
  | None => false
  end.

(** A compiled pattern given as [class_] selects an element when the
    pattern is found in one of its classes, or in all of them joined by
    blanks; an element without the attribute is not selected. *)
Definition has_class (r : regex) (n : node) : bool :=
  match n with
  | Elem _ (Some cl) _ =>
      existsb (found r) cl || found r (String.concat " " cl)
  | _ => false
  end.

Definition selects (names : list string) (r : option regex) (n : node)
  : bool :=
  has_name names n
  && match r with Some r => has_class r n | None => true end.

Definition find_all (n : node) (names : list string) (r : regex)
  : list node :=
  filter (selects names (Some r)) (descendants n).

Definition find (n : node) (names : list string) (r : option regex)
  : option node :=
  hd_error (filter (selects names r) (descendants n)).

Definition dom : Bs4 node :=
  @Build_Bs4 node
    (fun n names r => Ret (find_all n names r))
    (fun n names r => Ret (find n names r))
    (fun n => Ret (get_text n)).

(** The same document when the nodes picked by [bad] are malformed:
    every call on one of them raises. *)
Definition guard {A} (bad : node -> bool) (n : node) (a : A) : outcome A :=
  if bad n then Raise AttributeError else Ret a.

Definition malformed (bad : node -> bool) : Bs4 node :=
  @Build_Bs4 node
    (fun n names r => guard bad n (find_all n names r))
    (fun n names r => guard bad n (find n names r))
    (fun n => guard bad n (get_text n)).

End Dom.

(* ================================================================== *)
(** * Vocabulary of the statements *)

(** A matching step is sound for a language [L] when what it consumes
    before calling its continuation is a word of [L]. *)
Definition sound_step (R : Type) (L : text -> Prop)
  (step : text -> option text -> cont R -> option R) : Prop :=
  forall s cap k x,
    step s cap k = Some x ->
    exists w s' cap', s = w ++ s' /\ L w /\ k s' cap' = Some x.

(** The shape of a captured number when the subject has no comma: one
    to three digits, then possibly a point and exactly two digits. *)
Definition plain_price (w : text) : Prop :=
  exists ds fr,
    w = ds ++ fr
    /\ (1 <= length ds <= 3)%nat /\ forallb is_digit ds = true
    /\ (fr = []
        \/ exists d1 d2,
             fr = ["."%char; d1; d2]
             /\ is_digit d1 = true /\ is_digit d2 = true).

Definition greatest (m : Qc) (l : list Qc) : Prop :=
  In m l /\ forall x, In x l -> (x <= m)%Qc.

Definition least (m : Qc) (l : list Qc) : Prop :=
  In m l /\ forall x, In x l -> (m <= x)%Qc.

(** A collected price: not zero, and at most 999.99. *)
Definition priced (q : Qc) : Prop :=
  (cents 0 < q)%Qc /\ (q <= cents 99999)%Qc.

(** The prices that a text contributes, as a list. *)
Definition parsed (price_text : string) : list Qc :=
  match extract_price price_text with
  | Ret (Some x) => [x]
  | _ => []
  end.

Definition nonzero (q : Qc) : bool := truthy (Some q).

(** The values of a list, each once. *)
Fixpoint distinct (l : list Qc) : list Qc :=
  match l with
  | [] => []
  | x :: l' =>
      if existsb (Qc_eq_bool x) l' then distinct l' else x :: distinct l'
  end.

(** The record that a listing with the given name and prices yields. *)
Definition listing_record (brand category name : string)
  (prices : list Qc) (msrp sale_price : Qc) : ProductRecord :=
  {| Product := name;
     Brand := brand;
     Category := category;
     MSRP := Some msrp;
     Sale_Price := if (1 <? length prices)%nat
                   then Some sale_price else None |}.

Section ListingVocabulary.
Context {tag : Type} {soup_api : Bs4 tag}.
Variables brand category : string.

(** How the name element of a listing was found. *)
Definition resolved_name (product name_elem : tag) : Prop :=
  find product ["h2"; "h3"; "h4"; "a"] (Some name_class)
  = Ret (Some name_elem)
  \/ (find product ["h2"; "h3"; "h4"; "a"] (Some name_class) = Ret None
      /\ find product ["a"] None = Ret (Some name_elem)).

(** What a listing went through when it gave the record [r]. *)
Definition yields (product : tag) (prices : list Qc)
  (r : ProductRecord) : Prop :=
  exists name_elem name elems msrp sale_price,
    resolved_name product name_elem
    /\ get_text name_elem = Ret name
    /\ find_all product ["span"; "div"; "p"] price_class = Ret elems
    /\ fst (collect_prices elems [] []) = Ret prices
    /\ prices <> []
    /\ py_max prices = Ret msrp
    /\ py_min prices = Ret sale_price
    /\ r = listing_record brand category name prices msrp sale_price.
End ListingVocabulary.

(* ================================================================== *)
(** * Sample documents *)

Module Samples.
Import Dom.

Definition price_span (t : string) : node :=
  Elem "span" (Some ["price"]) [Text t].

Definition listing (name : string) (price_texts : list string) : node :=
  Elem "div" (Some ["product-card"])
    (Elem "h3" (Some ["product-title"]) [Text name]
     :: map price_span price_texts).

(** The page of the end-to-end scenario: Model A with two prices and
    Model B with none. *)
Definition two_listings : node :=
  Elem "html" None
    [Elem "body" None
       [listing "Model A" ["$999.00"; "$799.00"]; listing "Model B" []]].

(** A price element inside a price element: both are selected. *)
Definition nested_price : node :=
  Elem "div" (Some ["product"])
    [Elem "a" (Some ["title"]) [Text "Bike"];
     Elem "div" (Some ["price"]) [price_span "$99.99"]].

(** Markup without a heading or a link. *)
Definition nameless : node :=
  Elem "div" (Some ["card"]) [price_span "$10.00"].

(** A listing marked up as an [article]; the malformed ones of the
    examples. *)
Definition article (name : string) : node :=
  Elem "article" (Some ["item"])
    [Elem "a" None [Text name]; price_span "$5.00"].

Definition broken : Bs4 node := malformed (has_name ["article"]).

(** A site where the bikes page of Bowflex is refused and every other
    address serves [two_listings]. *)
Definition bikes_refused (url : string) : outcome node :=
  if String.eqb url "https://www.bowflex.com/bikes/"
  then Raise (HTTPError 403)
  else Ret two_listings.

(** The records of the examples. *)
Definition model_a : ProductRecord :=
  {| Product := "Model A"; Brand := "Bowflex"; Category := "Treadmills";
     MSRP := Some (cents 99900); Sale_Price := Some (cents 79900) |}.

Definition bike : ProductRecord :=
  {| Product := "Bike"; Brand := "Bowflex"; Category := "Treadmills";
     MSRP := Some (cents 9999); Sale_Price := Some (cents 9999) |}.

Definition reduced : ProductRecord :=
  {| Product := "Rower"; Brand := "Schwinn"; Category := "Home Gyms";
     MSRP := Some (cents 12999); Sale_Price := Some (cents 9999) |}.

(** A stand-in for [json.load] that knows one document, the empty
    array. *)
Definition load_empty (contents : string) : outcome (list ProductRecord) :=
  if String.eqb contents "[]" then Ret [] else Raise ValueError.

End Samples.

(* ================================================================== *)
(** * Vocabulary of the further statements *)

(** Up to [n] leading digits of a text, and what follows them. *)
Fixpoint take_digits (n : nat) (s : text) : text * text :=
  match n, s with
  | S n', c :: s' =>
      if is_digit c
      then let '(ds, r) := take_digits n' s' in (c :: ds, r)
      else ([], s)
  | _, _ => ([], s)
  end.

(** A point and two digits at the head of a text, and what follows. *)
Definition take_fraction (s : text) : text * text :=
  match s with
  | dot :: d1 :: d2 :: r =>
      if Ascii.eqb dot "." && is_digit d1 && is_digit d2
      then ([dot; d1; d2], r)
      else ([], s)
  | _ => ([], s)
  end.

(** The number at the head of a text: at most three digits, with the
    fraction that follows them directly, if any. *)
Definition number_at (s : text) : text :=
  let '(ds, r) := take_digits 3 s in ds ++ fst (take_fraction r).

(** The number at the first digit of a text. *)
Fixpoint first_number (s : text) : option text :=
  match s with
  | [] => None
  | c :: s' => if is_digit c then Some (number_at s) else first_number s'
  end.

Definition digit_free (s : text) : bool :=
  forallb (fun c => negb (is_digit c)) s.

(* ================================================================== *)
(** * The closed sets of the monitor *)

(** [self.categories], as [__init__] sets it. *)
Definition categories : list string :=
  [ "Treadmills";
    "Indoor Cycling Bikes";
    "Home Gyms";
    "Ellipticals and Max Trainer";
    "Adjustable Dumbbells" ]%string.

(** The brand strings of the three scrapers. *)
Definition brands : list string :=
  [ "Bowflex"; "Horizon Fitness"; "Schwinn" ]%string.

(** A record as a scraper makes it for a listing of [category]: tagged
    with the brand and the category, with an MSRP that is a collected
    price, and a sale price, if any, that is one too and not above the
    MSRP. *)
Definition scraped (brand category : string) (r : ProductRecord) : Prop :=
  Brand r = brand /\ Category r = category
  /\ exists m,
       MSRP r = Some m /\ priced m
       /\ forall s, Sale_Price r = Some s -> priced s /\ (s <= m)%Qc.

(** Every request is refused: a site behind bot protection. *)
Definition refuse_all (tag : Type) (url : string) : outcome tag :=
  Raise (HTTPError 403).

(** A stand-in for the [json] module that knows one document. *)
Definition dump_model_a (ps : list ProductRecord) : string := "[Model A]".

Definition load_model_a (contents : string)
  : outcome (list ProductRecord) :=
  if String.eqb contents "[Model A]"
  then Ret [Samples.model_a]
  else Raise ValueError.

(** The parsed page is malformed at its root: selecting the listings
    raises. *)
Definition broken_page : Bs4 Dom.node :=
  Dom.malformed (Dom.has_name ["html"]).

(* ================================================================== *)
(** * The report and the entry point *)

(** The decimal digit of a number below ten. *)
Definition digit_char (x : Z) : ascii := ascii_of_nat (48 + Z.to_nat x).

Fixpoint digits_fuel (fuel : nat) (n : Z) (acc : text) : text :=
  match fuel with
  | O => acc
  | S fuel' =>
      let acc' := digit_char (n mod 10) :: acc in
      if (n <? 10)%Z then acc' else digits_fuel fuel' (n / 10) acc'
  end.

(** [str(n)] for a number that is not negative: a number has no more
    decimal digits than binary ones, which bounds the loop. *)
Definition str_Z (n : Z) : text :=
  digits_fuel (S (Z.to_nat (Z.log2 n))) n [].

(** The [,] of a format specification, on the digits of the integer
    part from the last one backwards: a comma after every third digit
    that has digits after it. *)
Fixpoint group3 (rev_digits : text) : text :=
  match rev_digits with
  | a :: b :: c :: ((_ :: _) as more) =>
      a :: b :: c :: ","%char :: group3 more
  | _ => rev_digits
  end.

Definition thousands (digits : text) : text := rev (group3 (rev digits)).

(** Rounding to the nearest integer, ties to the even one. *)
Definition round_half_even (x : Q) : Z :=
  let f := Qfloor x in
  match Qcompare (x - inject_Z f) (Qmake 1 2) with
  | Lt => f
  | Gt => (f + 1)%Z
  | Eq => if Z.even f then f else (f + 1)%Z
  end.

(** [f"{price:,.2f}"].  For a price that is a whole number of cents, as
    [extract_price] returns them, two places hold the float exactly.
    Any other value is rounded on the rational that stands for the
    float, which is what Python prints unless the float lies across a
    tie from it. *)
Definition format_fixed (price : Qc) : text :=
  let n := round_half_even (Qabs price * inject_Z 100) in
  (match Qcompare price (inject_Z 0) with
   | Lt => ["-"%char]
   | _ => []
   end)
  ++ thousands (str_Z (n / 100))
  ++ "."%char :: [digit_char (n mod 100 / 10); digit_char (n mod 100 mod 10)].

(** [PriceMonitor.format_price]. *)
Definition format_price (price : option Qc) : string :=
  match price with
  | None => "N/A"
  | Some price => string_of_list_ascii ("$"%char :: format_fixed price)
  end.

(** [f"{s:<width}"]: spaces after the text up to the width; a longer
    text is left as it is. *)
Definition ljust (width : nat) (s : text) : text :=
  s ++ repeat " "%char (width - length s).

(** ["=" * 100] *)
Definition rule : text := repeat "="%char 100.

(** The header line of the table, line 298. *)
Definition header : text :=
  ljust 40 (list_ascii_of_string "Product") ++ " "%char
  :: ljust 20 (list_ascii_of_string "Brand") ++ " "%char
  :: ljust 25 (list_ascii_of_string "Category") ++ " "%char
  :: ljust 12 (list_ascii_of_string "MSRP") ++ " "%char
  :: ljust 12 (list_ascii_of_string "Sale Price").

(** The line of one product, lines 303-309. *)
Definition display_row (product : ProductRecord) : text :=
  let name := list_ascii_of_string (Product product) in
  let product_name :=
    if (40 <? length name)%nat
    then firstn 38 name ++ list_ascii_of_string ".."
    else name in
  let brand := list_ascii_of_string (Brand product) in
  let cat := list_ascii_of_string (Category product) in
  let category :=
    if (25 <? length cat)%nat
    then firstn 23 cat ++ list_ascii_of_string ".."
    else cat in
  let msrp := list_ascii_of_string (format_price (MSRP product)) in
  let sale_price :=
    list_ascii_of_string (format_price (Sale_Price product)) in
  ljust 40 product_name ++ " "%char
  :: ljust 20 brand ++ " "%char
  :: ljust 25 category ++ " "%char
  :: ljust 12 msrp ++ " "%char
  :: ljust 12 sale_price.

(** [PriceMonitor.display_results]: the lines that it prints.  A text
    that starts with a line feed prints an empty line first. *)
Definition display_results (products : list ProductRecord) : list string :=
  match products with
  | [] => [""; "No products found."]%string
  | _ :: _ =>
      map string_of_list_ascii
        ([[]; rule; header; rule]
         ++ map display_row products
         ++ [rule; [];
             list_ascii_of_string "Total products found: "
             ++ str_Z (Z.of_nat (length products))])
  end.

Section EntryPoint.
Context {tag : Type} {soup_api : Bs4 tag}.
Variable http_get : string -> outcome tag.
Variable json_dump : list ProductRecord -> string.
Variable json_load : string -> outcome (list ProductRecord).

(** [main], from a new monitor: the run, then the report, which does
    not touch the products, then the file when there are products.
    The result is the directory with the products at the end. *)
Definition main (fs : files) (sample : bool)
  : outcome files * list ProductRecord :=
  (run http_get json_load fs sample ;;;
   (fun products =>
      match products with
      | [] => (Ret fs, products)
      | _ :: _ => save_to_json json_dump "products.json" fs products
      end)) [].
End EntryPoint.

(** A price that is a whole number of cents, from 0.01 to 999.99. *)
Definition in_cents (q : Qc) : Prop :=
  exists n, (0 < n <= 99999)%Z /\ q = cents n.

(** The digits of the numbers below 1000, checked one by one. *)
Definition small_digits_ok (k : Z) : bool :=
  let ds := str_Z k in
  (1 <=? length ds)%nat && (length ds <=? 3)%nat
  && forallb is_digit ds
  && (digits_value ds =? k)%Z
  && String.eqb (string_of_list_ascii (thousands ds))
       (string_of_list_ascii ds).

(** The record of a listing with the single price 5.00. *)
Definition model_c : ProductRecord :=
  {| Product := "Model C"; Brand := "Bowflex"; Category := "Treadmills";
     MSRP := Some (cents 500); Sale_Price := None |}.

(* ================================================================== *)
(** * The [json] module on product collections *)

(** [json.dump(products, f, indent=2)] and [json.load(f)] for the files
    of the program: an array of objects with the five keys of a product
    dict, string values for the first three and a number or [null] for
    the two prices.  Any other document is a decoding error here, and
    so is a number with an exponent or a character beyond code 255. *)
Module Json.

Definition quote : ascii := ascii_of_nat 34.
Definition backslash : ascii := ascii_of_nat 92.
Definition newline : ascii := ascii_of_nat 10.

(** The values that a product dict holds. *)
Inductive value : Type :=
| String_ (s : text)
| Number (q : Qc)
| Null.

(** ** Writing *)

Definition hex_char (n : nat) : ascii :=
  nth n (list_ascii_of_string "0123456789abcdef") "0"%char.

(** One character of a string under [ensure_ascii]: the quote, the
    backslash and the characters outside of blank..tilde are escaped,
    with the short form where JSON has one. *)
Definition escape_char (c : ascii) : text :=
  let n := code c in
  if (n =? 34)%nat then [backslash; quote]
  else if (n =? 92)%nat then [backslash; backslash]
  else if (n =? 10)%nat then [backslash; "n"%char]
  else if (n =? 13)%nat then [backslash; "r"%char]
  else if (n =? 9)%nat then [backslash; "t"%char]
  else if (n =? 12)%nat then [backslash; "f"%char]
  else if (n =? 8)%nat then [backslash; "b"%char]
  else if ((32 <=? n) && (n <=? 126))%nat then [c]
  else [backslash; "u"%char; "0"%char; "0"%char;
        hex_char (n / 16); hex_char (n mod 16)].

Definition encode_string (s : string) : text :=
  quote :: flat_map escape_char (list_ascii_of_string s) ++ [quote].

(** [float.__repr__], the shortest text that reads back as the float.
    The prices of this program are whole numbers of cents, read by
    [extract_price] from at most two digits after the point; for a
    float nearest to such a decimal of at most fifteen digits the
    shortest text is that decimal, with one digit after the point at
    least.  The rationals that stand for floats here include values
    that are no such decimal; those are written to the nearest cent,
    and no statement below is about them. *)
Definition float_repr (price : Qc) : text :=
  let n := round_half_even (Qabs price * inject_Z 100) in
  let f := (n mod 100)%Z in
  (match Qcompare price (inject_Z 0) with
   | Lt => ["-"%char]
   | _ => []
   end)
  ++ str_Z (n / 100)
  ++ "."%char
  :: digit_char (f / 10)
  :: (if (f mod 10 =? 0)%Z then [] else [digit_char (f mod 10)]).

Definition encode_price (price : option Qc) : text :=
  match price with
  | None => list_ascii_of_string "null"
  | Some q => float_repr q
  end.

(** A key and its value, at the indentation of the members. *)
Definition member (key : string) (v : text) : text :=
  repeat " "%char 4 ++ encode_string key ++ ":"%char :: " "%char :: v.

Definition encode_product (r : ProductRecord) : text :=
  repeat " "%char 2 ++ "{"%char :: newline
  :: member "Product" (encode_string (Product r)) ++ ","%char :: newline
  :: member "Brand" (encode_string (Brand r)) ++ ","%char :: newline
  :: member "Category" (encode_string (Category r)) ++ ","%char :: newline
  :: member "MSRP" (encode_price (MSRP r)) ++ ","%char :: newline
  :: member "Sale Price" (encode_price (Sale_Price r)) ++ newline
  :: repeat " "%char 2 ++ ["}"%char].

Fixpoint join (sep : text) (items : list text) : text :=
  match items with
  | [] => []
  | [x] => x
  | x :: rest => x ++ sep ++ join sep rest
  end.

Definition dumps (products : list ProductRecord) : text :=
  match products with
  | [] => list_ascii_of_string "[]"
  | _ :: _ =>
      "["%char :: newline
      :: join [","%char; newline] (map encode_product products)
      ++ [newline; "]"%char]
  end.

(** ** Reading *)

Definition is_ws (c : ascii) : bool :=
  let n := code c in
  ((n =? 32) || (n =? 9) || (n =? 10) || (n =? 13))%nat.

Fixpoint skip_ws (s : text) : text :=
  match s with
  | c :: s' => if is_ws c then skip_ws s' else s
  | [] => []
  end.

Definition unescape (e : ascii) : option ascii :=
  let n := code e in
  if (n =? 34)%nat then Some quote
  else if (n =? 92)%nat then Some backslash
  else if (n =? 47)%nat then Some "/"%char
  else if (n =? 98)%nat then Some (ascii_of_nat 8)
  else if (n =? 102)%nat then Some (ascii_of_nat 12)
  else if (n =? 110)%nat then Some newline
  else if (n =? 114)%nat then Some (ascii_of_nat 13)
  else if (n =? 116)%nat then Some (ascii_of_nat 9)
  else None.

Definition hex_value (c : ascii) : option nat :=
  let n := code c in
  if ((48 <=? n) && (n <=? 57))%nat then Some (n - 48)%nat
  else if ((97 <=? n) && (n <=? 102))%nat then Some (n - 87)%nat
  else if ((65 <=? n) && (n <=? 70))%nat then Some (n - 55)%nat
  else None.

Definition cons_char (c : ascii) (r : option (text * text))
  : option (text * text) :=
  match r with
  | Some (u, rest) => Some (c :: u, rest)
  | None => None
  end.

(** A string, from after its opening quote: the text and what follows
    the closing quote. *)
Fixpoint scan_string (s : text) : option (text * text) :=
  match s with
  | [] => None
  | c :: s1 =>
      if Ascii.eqb c quote then Some ([], s1)
      else if Ascii.eqb c backslash then
        match s1 with
        | [] => None
        | e :: s2 =>
            if Ascii.eqb e "u" then
              match s2 with
              | h1 :: h2 :: h3 :: h4 :: s3 =>
                  match hex_value h1, hex_value h2,
                        hex_value h3, hex_value h4 with
                  | Some a, Some b, Some c', Some d =>
                      let n := (((a * 16 + b) * 16 + c') * 16 + d)%nat in
                      if (n <? 256)%nat
                      then cons_char (ascii_of_nat n) (scan_string s3)
                      else None
                  | _, _, _, _ => None
                  end
              | _ => None
              end
            else
              match unescape e with
              | Some ch => cons_char ch (scan_string s2)
              | None => None
              end
        end
      else if (code c <? 32)%nat then None
      else cons_char c (scan_string s1)
  end.

Definition is_number_char (c : ascii) : bool :=
  is_digit c || Ascii.eqb c "-" || Ascii.eqb c "+" || Ascii.eqb c "."
  || Ascii.eqb c "e" || Ascii.eqb c "E".

Fixpoint span_number (s : text) : text * text :=
  match s with
  | c :: s' =>
      if is_number_char c
      then let '(tok, rest) := span_number s' in (c :: tok, rest)
      else ([], s)
  | [] => ([], [])
  end.

(** The digits of a JSON number without exponent: no leading zero
    before other digits, and digits after a point. *)
Definition plain_number (tok : text) : bool :=
  let '(ip, fp) := split_at_dot tok in
  forallb is_digit ip
  && match ip with
     | [] => false
     | [_] => true
     | d :: _ => negb (Ascii.eqb d "0")
     end
  && match fp with
     | None => true
     | Some f => forallb is_digit f && negb (length f =? 0)%nat
     end.

Definition parse_number (s : text) : option (Qc * text) :=
  let '(tok, rest) := span_number s in
  let '(negative, body) :=
    match tok with
    | c :: b => if Ascii.eqb c "-" then (true, b) else (false, tok)
    | [] => (false, tok)
    end in
  if plain_number body
  then match float body with
       | Ret q => Some (if negative then Qcopp q else q, rest)
       | Raise _ => None
       end
  else None.

Definition parse_value (s : text) : option (value * text) :=
  match skip_ws s with
  | c :: s1 =>
      if Ascii.eqb c quote then
        match scan_string s1 with
        | Some (u, rest) => Some (String_ u, rest)
        | None => None
        end
      else if Ascii.eqb c "n" then
        match s1 with
        | u :: l1 :: l2 :: rest =>
            if Ascii.eqb u "u" && Ascii.eqb l1 "l" && Ascii.eqb l2 "l"
            then Some (Null, rest) else None
        | _ => None
        end
      else
        match parse_number (c :: s1) with
        | Some (q, rest) => Some (Number q, rest)
        | None => None
        end
  | [] => None
  end.

(** The members of an object, from its first key to the closing
    brace.  [fuel] bounds the number of members. *)
Fixpoint parse_members (fuel : nat) (s : text)
  : option (list (text * value) * text) :=
  match fuel with
  | O => None
  | S fuel' =>
      match skip_ws s with
      | q :: s1 =>
          if Ascii.eqb q quote then
            match scan_string s1 with
            | Some (key, s2) =>
                match skip_ws s2 with
                | colon :: s3 =>
                    if Ascii.eqb colon ":" then
                      match parse_value s3 with
                      | Some (v, s4) =>
                          match skip_ws s4 with
                          | d :: s5 =>
                              if Ascii.eqb d "," then
                                match parse_members fuel' s5 with
                                | Some (ms, rest) =>
                                    Some ((key, v) :: ms, rest)
                                | None => None
                                end
                              else if Ascii.eqb d "}"
                              then Some ([(key, v)], s5)
                              else None
                          | [] => None
                          end
                      | None => None
                      end
                    else None
                | [] => None
                end
            | None => None
            end
          else None
      | [] => None
      end
  end.

Definition parse_object (s : text) : option (list (text * value) * text) :=
  match skip_ws s with
  | c :: s1 =>
      if Ascii.eqb c "{" then
        match skip_ws s1 with
        | d :: s2 =>
            if Ascii.eqb d "}" then Some ([], s2)
            else parse_members (length s1) s1
        | [] => None
        end
      else None
  | [] => None
  end.

Fixpoint lookup (key : string) (ms : list (text * value)) : option value :=
  match ms with
  | [] => None
  | (k, v) :: ms' =>
      if String.eqb (string_of_list_ascii k) key then Some v
      else lookup key ms'
  end.

Definition price_of (v : value) : option (option Qc) :=
  match v with
  | Number q => Some (Some q)
  | Null => Some None
  | String_ _ => None
  end.

(** The product dict of an object: the five keys and nothing else. *)
Definition product_of (ms : list (text * value)) : option ProductRecord :=
  if (length ms =? 5)%nat then
    match lookup "Product" ms, lookup "Brand" ms, lookup "Category" ms,
          lookup "MSRP" ms, lookup "Sale Price" ms with
    | Some (String_ p), Some (String_ b), Some (String_ c),
      Some m, Some s =>
        match price_of m, price_of s with
        | Some msrp, Some sale_price =>
            Some {| Product := string_of_list_ascii p;
                    Brand := string_of_list_ascii b;
                    Category := string_of_list_ascii c;
                    MSRP := msrp;
                    Sale_Price := sale_price |}
        | _, _ => None
        end
    | _, _, _, _, _ => None
    end
  else None.

(** The items of an array, from its first item to the closing
    bracket.  [fuel] bounds the number of items. *)
Fixpoint parse_items (fuel : nat) (s : text)
  : option (list ProductRecord * text) :=
  match fuel with
  | O => None
  | S fuel' =>
      match parse_object s with
      | Some (ms, s1) =>
          match product_of ms with
          | Some r =>
              match skip_ws s1 with
              | d :: s2 =>
                  if Ascii.eqb d "," then
                    match parse_items fuel' s2 with
                    | Some (rs, rest) => Some (r :: rs, rest)
                    | None => None
                    end
                  else if Ascii.eqb d "]" then Some ([r], s2)
                  else None
              | [] => None
              end
          | None => None
          end
      | None => None
      end
  end.

Definition loads (s : text) : outcome (list ProductRecord) :=
  match skip_ws s with
  | c :: s1 =>
      if Ascii.eqb c "[" then
        match
          match skip_ws s1 with
          | d :: s2 =>
              if Ascii.eqb d "]" then Some ([], s2)
              else parse_items (length s1) s1
          | [] => None
          end
        with
        | Some (products, rest) =>
            match skip_ws rest with
            | [] => Ret products
            | _ :: _ => Raise ValueError
            end
        | None => Raise ValueError
        end
      else Raise ValueError
  | [] => Raise ValueError
  end.

Definition json_dump (products : list ProductRecord) : string :=
  string_of_list_ascii (dumps products).

Definition json_load (contents : string) : outcome (list ProductRecord) :=
  loads (list_ascii_of_string contents).

End Json.

(** A price that the files hold exactly: absent, or a whole number of
    cents that is not negative and has at most fifteen digits. *)
Definition storable_price (price : option Qc) : Prop :=
  price = None
  \/ exists n, (0 <= n < 10 ^ 15)%Z /\ price = Some (cents n).

Definition storable (r : ProductRecord) : Prop :=
  storable_price (MSRP r) /\ storable_price (Sale_Price r).




(* ================================================================== *)
(** * The matcher finds only words of the pattern's language *)

Section ExecSound.
Variable R : Type.

Lemma or_else_some (a b : option R) x :
  or_else a b = Some x -> a = Some x \/ b = Some x.
Proof. destruct a; simpl; intros H; [left | right]; assumption. Qed.

Lemma star_loop_sound L
  (step : text -> option text -> cont R -> option R) k :
  sound_step L step ->
  forall fuel s cap x,
    star_loop step k fuel s cap = Some x ->
    exists w s' cap' n,
      s = w ++ s' /\ power L n w /\ k s' cap' = Some x.
Proof.
  intros Hstep fuel.
  induction fuel as [|fuel IH]; intros s cap x H; simpl in H.
  - exists [], s, cap, 0%nat. repeat split; assumption.
  - apply or_else_some in H. destruct H as [H | H].
    + apply Hstep in H. destruct H as (w1 & s1 & c1 & -> & Hw1 & H).
      destruct (length s1 <? length (w1 ++ s1))%nat; [| discriminate].
      apply IH in H. destruct H as (w2 & s2 & c2 & n & -> & Hw2 & H).
      exists (w1 ++ w2), s2, c2, (S n). split; [apply app_assoc |].
      split; [| assumption]. exists w1, w2. auto.
    + exists [], s, cap, 0%nat. repeat split; assumption.
Qed.

Lemma rep_loop_sound L
  (step : text -> option text -> cont R -> option R) k :
  sound_step L step ->
  forall hi lo s cap x,
    rep_loop step k lo hi s cap = Some x ->
    exists w s' cap' n,
      s = w ++ s' /\ (lo <= n <= hi)%nat /\ power L n w
      /\ k s' cap' = Some x.
Proof.
  intros Hstep hi.
  induction hi as [|hi IH]; intros lo s cap x H; simpl in H.
  - destruct lo; [| discriminate].
    exists [], s, cap, 0%nat. repeat split; auto.
  - apply or_else_some in H. destruct H as [H | H].
    + apply Hstep in H. destruct H as (w1 & s1 & c1 & -> & Hw1 & H).
      apply IH in H.
      destruct H as (w2 & s2 & c2 & n & -> & Hn & Hw2 & H).
      exists (w1 ++ w2), s2, c2, (S n). split; [apply app_assoc |].
      split; [lia |]. split; [| assumption]. exists w1, w2. auto.
    + destruct lo; [| discriminate].
      exists [], s, cap, 0%nat. repeat split; auto. lia.
Qed.

Lemma firstn_consumed (w s' : text) :
  firstn (length (w ++ s') - length s') (w ++ s') = w.
Proof.
  rewrite length_app, Nat.add_sub.
  rewrite firstn_app, Nat.sub_diag, firstn_all. simpl. apply app_nil_r.
Qed.

Lemma exec_sound r : sound_step (lang r) (exec (R := R) r).
Proof.
  induction r as [| p | r1 IH1 r2 IH2 | r1 IH1 r2 IH2 | r1 IH1 | r1 IH1
                 | lo hi r1 IH1 | r1 IH1];
    intros s cap k x H; simpl in H.
  - exists [], s, cap. repeat split; assumption.
  - destruct s as [|c s']; [discriminate |].
    destruct (p c) eqn:Hp; [| discriminate].
    exists [c], s', cap. split; [reflexivity |]. split; [| assumption].
    exists c. auto.
  - apply IH1 in H. destruct H as (w1 & s1 & c1 & -> & Hw1 & H).
    apply IH2 in H. destruct H as (w2 & s2 & c2 & -> & Hw2 & H).
    exists (w1 ++ w2), s2, c2. split; [apply app_assoc |].
    split; [| assumption]. exists w1, w2. auto.
  - apply or_else_some in H. destruct H as [H | H].
    + apply IH1 in H. destruct H as (w & s' & c' & -> & Hw & H).
      exists w, s', c'. simpl. auto.
    + apply IH2 in H. destruct H as (w & s' & c' & -> & Hw & H).
      exists w, s', c'. simpl. auto.
  - apply or_else_some in H. destruct H as [H | H].
    + apply IH1 in H. destruct H as (w & s' & c' & -> & Hw & H).
      exists w, s', c'. simpl. auto.
    + exists [], s, cap. simpl. auto.
  - eapply star_loop_sound in H; [| exact IH1].
    destruct H as (w & s' & c' & n & -> & Hw & H).
    exists w, s', c'. split; [reflexivity |]. split; [| assumption].
    exists n. assumption.
  - eapply rep_loop_sound in H; [| exact IH1].
    destruct H as (w & s' & c' & n & -> & Hn & Hw & H).
    exists w, s', c'. split; [reflexivity |]. split; [| assumption].
    exists n. auto.
  - apply IH1 in H. destruct H as (w & s' & c' & -> & Hw & H).
    exists w, s', (Some (firstn (length (w ++ s') - length s') (w ++ s'))).
    auto.
Qed.
End ExecSound.

(** A match of [prefix(group)] reports the text that the group took. *)
Lemma exec_group_capture r0 r1 s cap m :
  exec (Seq r0 (Group r1)) s cap (fun _ c => Some c) = Some m ->
  exists w0 w s',
    s = w0 ++ w ++ s' /\ lang r0 w0 /\ lang r1 w /\ m = Some w.
Proof.
  simpl. intros H.
  apply exec_sound in H. destruct H as (w0 & s1 & c1 & -> & Hw0 & H).
  apply exec_sound in H. destruct H as (w & s' & c' & -> & Hw & H).
  rewrite firstn_consumed in H. injection H as <-.
  exists w0, w, s'. auto.
Qed.

Lemma search_group_capture r0 r1 s m :
  search (Seq r0 (Group r1)) s = Some m ->
  exists pre w s', s = pre ++ w ++ s' /\ lang r1 w /\ m = Some w.
Proof.
  induction s as [|c s IH]; simpl.
  - destruct (exec r0 [] None _) eqn:E.
    + intros H. injection H as ->.
      apply (exec_group_capture r0 r1) in E.
      destruct E as (w0 & w & s' & Hs & _ & Hw & ->).
      exists w0, w, s'. auto.
    + discriminate.
  - destruct (exec r0 (c :: s) None _) eqn:E.
    + intros H. injection H as ->.
      apply (exec_group_capture r0 r1) in E.
      destruct E as (w0 & w & s' & Hs & _ & Hw & ->).
      exists w0, w, s'. auto.
    + intros H. apply IH in H. destruct H as (pre & w & s' & -> & Hw & ->).
      exists (c :: pre), w, s'. auto.
Qed.

(* ================================================================== *)
(** * What the price pattern can capture *)

Lemma power_chr p n w :
  power (lang (Chr p)) n w -> length w = n /\ forallb p w = true.
Proof.
  revert w. induction n as [|n IH]; simpl; intros w H.
  - subst w. auto.
  - destruct H as (w1 & w2 & -> & (c & -> & Hc) & H).
    apply IH in H. destruct H as [<- Hw2]. simpl. rewrite Hc, Hw2. auto.
Qed.

Lemma is_digit_not_dot c : is_digit c = true -> Ascii.eqb c "." = false.
Proof.
  intros H. destruct (Ascii.eqb_spec c "."%char) as [-> |]; [discriminate |].
  reflexivity.
Qed.

(** A word of the comma groups is empty or contains a comma. *)
Lemma comma_groups_empty n w :
  power (lang (Seq (lit ",") (Rep 3 3 (Chr is_digit)))) n w ->
  ~ In ","%char w -> w = [].
Proof.
  destruct n as [|n]; simpl; [auto |].
  intros (w1 & w2 & -> & (u & v & -> & (c & -> & Hc) & _) & _) Hno.
  change (Ascii.eqb "," c = true) in Hc.
  exfalso. apply Hno. apply Ascii.eqb_eq in Hc. subst c. simpl. auto.
Qed.

Lemma price_number_shape w :
  lang price_number w -> ~ In ","%char w -> plain_price w.
Proof.
  intros (w1 & w23 & -> & (n & Hn & H1) & (w2 & w3 & -> & (m & H2) & H3)) Hno.
  apply power_chr in H1. destruct H1 as [Hlen Hds].
  assert (w2 = []) as ->.
  { apply (comma_groups_empty _ _ H2). intros Hin. apply Hno.
    apply in_or_app. right. apply in_or_app. left. assumption. }
  exists w1, w3. split; [reflexivity |]. split; [lia |]. split; [assumption |].
  destruct H3 as [-> | (u & v & -> & (c & -> & Hc) & (k & Hk & Hv))];
    [left; reflexivity | right].
  change (Ascii.eqb "." c = true) in Hc.
  apply Ascii.eqb_eq in Hc. subst c.
  apply power_chr in Hv. destruct Hv as [Hlv Hdv].
  assert (k = 2%nat) as -> by lia.
  destruct v as [|d1 [|d2 [|? ?]]]; try discriminate.
  simpl in Hdv. apply andb_prop in Hdv. destruct Hdv as [Hd1 Hd2].
  apply andb_prop in Hd2. destruct Hd2 as [Hd2 _].
  exists d1, d2. auto.
Qed.

Lemma remove_char_not_in c s : ~ In c (remove_char c s).
Proof.
  unfold remove_char. intros H. apply filter_In in H. destruct H as [_ H].
  rewrite Ascii.eqb_refl in H. discriminate.
Qed.

Lemma remove_char_absent c s : ~ In c s -> remove_char c s = s.
Proof.
  unfold remove_char.
  induction s as [|a s IH]; simpl; intros H; [reflexivity |].
  destruct (Ascii.eqb_spec a c) as [-> | Hne]; simpl.
  - exfalso. apply H. auto.
  - f_equal. apply IH. intros Hin. apply H. auto.
Qed.

(** [search] on the price pattern captures a plain price whenever the
    subject has no comma. *)
Lemma search_price_shape s m :
  ~ In ","%char s ->
  search price_re s = Some m ->
  exists w, m = Some w /\ plain_price w /\ ~ In ","%char w.
Proof.
  intros Hno H. unfold price_re in H.
  apply search_group_capture in H.
  destruct H as (pre & w & s' & -> & Hw & ->).
  assert (Hw' : ~ In ","%char w).
  { intros Hin. apply Hno. apply in_or_app. right.
    apply in_or_app. left. assumption. }
  exists w. split; [reflexivity |]. split; [| assumption].
  apply price_number_shape; assumption.
Qed.

(* ================================================================== *)
(** * The value of a plain price *)

Lemma split_at_dot_digits ds :
  forallb is_digit ds = true ->
  (forall f, split_at_dot (ds ++ "."%char :: f) = (ds, Some f))
  /\ split_at_dot ds = (ds, None).
Proof.
  induction ds as [|c ds IH]; simpl; intros H.
  - auto.
  - apply andb_prop in H. destruct H as [Hc Hds].
    rewrite (is_digit_not_dot _ Hc).
    destruct (IH Hds) as [IH1 IH2]. split.
    + intros f. rewrite IH1. reflexivity.
    + rewrite IH2. reflexivity.
Qed.

Lemma digit_value_range c :
  is_digit c = true -> (0 <= digit_value c <= 9)%Z.
Proof.
  unfold is_digit, digit_value. intros H.
  apply andb_prop in H. destruct H as [H1 H2].
  apply Nat.leb_le in H1, H2. lia.
Qed.

Lemma digits_value_range ds :
  forallb is_digit ds = true -> (length ds <= 3)%nat ->
  (0 <= digits_value ds <= 999)%Z.
Proof.
  intros H Hlen.
  destruct ds as [|a [|b [|c [|? ?]]]]; simpl in Hlen; try lia;
    unfold digits_value; cbn [fold_left forallb] in *;
    repeat match goal with
      | H : (_ && _)%bool = true |- _ =>
          apply andb_prop in H; destruct H
      | H : is_digit _ = true |- _ => apply digit_value_range in H
      end; lia.
Qed.

Lemma to_float_le q q' : Qle q q' -> Qcle (to_float q) (to_float q').
Proof.
  intros H. unfold Qcle, to_float, Q2Qc. simpl.
  rewrite !Qred_correct. assumption.
Qed.

(** [float] of a plain price is defined and lies between 0 and 999.99. *)
Lemma float_plain_price w :
  plain_price w ->
  exists q, float w = Ret q /\ (cents 0 <= q <= cents 99999)%Qc.
Proof.
  intros (ds & fr & -> & Hlen & Hds & Hfr).
  pose proof (digits_value_range ds Hds ltac:(lia)) as Hiv.
  destruct (split_at_dot_digits ds Hds) as [Hdot Hnodot].
  assert (Hnz : (length ds =? 0)%nat = false) by (apply Nat.eqb_neq; lia).
  destruct Hfr as [-> | (d1 & d2 & -> & Hd1 & Hd2)]; unfold float.
  - rewrite app_nil_r, Hnodot, Hds, Hnz.
    cbn [forallb length andb negb Z.of_nat].
    change (digits_value []) with 0%Z.
    change (Z.to_pos (10 ^ 0)) with 1%positive.
    eexists. split; [reflexivity |].
    split; apply to_float_le; unfold Qle; cbn [Qnum Qden]; lia.
  - rewrite Hdot, Hds, Hnz.
    cbn [forallb length andb negb Nat.eqb]. rewrite Hd1, Hd2.
    cbn [andb negb].
    change (Z.of_nat 2) with 2%Z.
    change (Z.to_pos (10 ^ 2)) with 100%positive.
    change (digits_value [d1; d2])
      with (10 * (10 * 0 + digit_value d1) + digit_value d2)%Z.
    apply digit_value_range in Hd1, Hd2.
    eexists. split; [reflexivity |].
    split; apply to_float_le; unfold Qle; cbn [Qnum Qden]; lia.
Qed.

(** [extract_price] always returns, and a price it returns lies between
    0 and 999.99. *)
Lemma extract_price_range s :
  extract_price s = Ret None
  \/ exists q, extract_price s = Ret (Some q)
               /\ (cents 0 <= q <= cents 99999)%Qc.
Proof.
  unfold extract_price.
  destruct (length (list_ascii_of_string s) =? 0)%nat; [left; reflexivity |].
  destruct (search price_re _) as [m |] eqn:E; [| left; reflexivity].
  apply search_price_shape in E; [| apply remove_char_not_in].
  destruct E as (w & -> & Hw & Hno).
  rewrite remove_char_absent by exact Hno.
  destruct (float_plain_price Hw) as (q & -> & Hq).
  right. exists q. auto.
Qed.

(* ================================================================== *)
(** * [max] and [min] *)

Lemma fold_max_spec xs : forall x,
  let m := fold_left
             (fun best y => match (y ?= best)%Qc with Gt => y | _ => best end)
             xs x in
  (m = x \/ In m xs) /\ (x <= m)%Qc /\ forall y, In y xs -> (y <= m)%Qc.
Proof.
  induction xs as [|y xs IH]; intros x; simpl.
  - split; [auto |]. split; [apply Qcle_refl | tauto].
  - destruct (y ?= x)%Qc eqn:E.
    + destruct (IH x) as (Hin & Hle & Hall).
      apply Qceq_alt in E. subst y.
      split; [tauto |]. split; [assumption |].
      intros z [<- | Hz]; auto.
    + destruct (IH x) as (Hin & Hle & Hall).
      apply Qclt_alt, Qclt_le_weak in E.
      split; [tauto |]. split; [assumption |].
      intros z [<- | Hz]; [apply (Qcle_trans _ _ _ E Hle) | auto].
    + destruct (IH y) as (Hin & Hle & Hall).
      apply Qcgt_alt, Qclt_le_weak in E.
      split; [destruct Hin as [Hin | Hin]; auto |].
      split; [apply (Qcle_trans _ _ _ E Hle) |].
      intros z [<- | Hz]; auto.
Qed.

Lemma fold_min_spec xs : forall x,
  let m := fold_left
             (fun best y => match (y ?= best)%Qc with Lt => y | _ => best end)
             xs x in
  (m = x \/ In m xs) /\ (m <= x)%Qc /\ forall y, In y xs -> (m <= y)%Qc.
Proof.
  induction xs as [|y xs IH]; intros x; simpl.
  - split; [auto |]. split; [apply Qcle_refl | tauto].
  - destruct (y ?= x)%Qc eqn:E.
    + destruct (IH x) as (Hin & Hle & Hall).
      apply Qceq_alt in E. subst y.
      split; [tauto |]. split; [assumption |].
      intros z [<- | Hz]; auto.
    + destruct (IH y) as (Hin & Hle & Hall).
      apply Qclt_alt, Qclt_le_weak in E.
      split; [destruct Hin as [Hin | Hin]; auto |].
      split; [apply (Qcle_trans _ _ _ Hle E) |].
      intros z [<- | Hz]; auto.
    + destruct (IH x) as (Hin & Hle & Hall).
      apply Qcgt_alt, Qclt_le_weak in E.
      split; [tauto |]. split; [assumption |].
      intros z [<- | Hz]; [apply (Qcle_trans _ _ _ Hle E) | auto].
Qed.

Lemma py_max_greatest l m : py_max l = Ret m -> greatest m l.
Proof.
  destruct l as [|x xs]; simpl; [discriminate |].
  intros H. injection H as <-.
  destruct (fold_max_spec xs x) as (Hin & Hle & Hall).
  split; [simpl; destruct Hin as [-> | Hin]; auto |].
  intros z [<- | Hz]; auto.
Qed.

Lemma py_min_least l m : py_min l = Ret m -> least m l.
Proof.
  destruct l as [|x xs]; simpl; [discriminate |].
  intros H. injection H as <-.
  destruct (fold_min_spec xs x) as (Hin & Hle & Hall).
  split; [simpl; destruct Hin as [-> | Hin]; auto |].
  intros z [<- | Hz]; auto.
Qed.

Lemma py_max_defined x xs : exists m, py_max (x :: xs) = Ret m.
Proof. eexists. reflexivity. Qed.

Lemma py_min_defined x xs : exists m, py_min (x :: xs) = Ret m.
Proof. eexists. reflexivity. Qed.

Lemma greatest_perm l l' m m' :
  Permutation l l' -> greatest m l -> greatest m' l' -> m = m'.
Proof.
  intros HP [Hin Hall] [Hin' Hall'].
  apply Qcle_antisym.
  - apply Hall'. apply (Permutation_in _ HP). assumption.
  - apply Hall. apply (Permutation_in _ (Permutation_sym HP)). assumption.
Qed.

Lemma least_perm l l' m m' :
  Permutation l l' -> least m l -> least m' l' -> m = m'.
Proof.
  intros HP [Hin Hall] [Hin' Hall'].
  apply Qcle_antisym.
  - apply Hall. apply (Permutation_in _ (Permutation_sym HP)). assumption.
  - apply Hall'. apply (Permutation_in _ HP). assumption.
Qed.

(* ================================================================== *)
(** * The listing loop *)

Lemma truthy_priced t x :
  extract_price t = Ret (Some x) -> truthy (Some x) = true -> priced x.
Proof.
  intros He Ht.
  destruct (extract_price_range t) as [H | (q & H & Hlo & Hhi)];
    rewrite He in H; [discriminate |].
  injection H as <-.
  split; [| assumption].
  apply Qcle_lt_or_eq in Hlo. destruct Hlo as [Hlo | Heq]; [assumption |].
  exfalso. simpl in Ht. unfold Qc_eq_bool in Ht.
  destruct (Qc_eq_dec x (cents 0)) as [_ | Hne]; [discriminate |].
  apply Hne. symmetry. assumption.
Qed.

Ltac run_monitor :=
  unfold bind, lift, ret, append, try_except; cbn beta iota.

Section ListingFacts.
Context {tag : Type} {soup_api : Bs4 tag}.

(** Collecting prices leaves the products alone, and its result does
    not depend on them. *)
Lemma collect_prices_state elems : forall acc st,
  collect_prices elems acc st = (fst (collect_prices elems acc []), st).
Proof.
  induction elems as [|e rest IH]; intros acc st; simpl; [reflexivity |].
  run_monitor.
  destruct (get_text e) as [t |]; [| reflexivity].
  destruct (extract_price t) as [[x |] |]; [| apply IH | reflexivity].
  destruct (truthy (Some x)); apply IH.
Qed.

Lemma collect_prices_priced elems : forall acc prices,
  fst (collect_prices elems acc []) = Ret prices ->
  exists new, prices = acc ++ new /\ Forall priced new.
Proof.
  induction elems as [|e rest IH]; intros acc prices; simpl.
  - intros H. injection H as <-. exists []. rewrite app_nil_r. auto.
  - run_monitor.
    destruct (get_text e) as [t |]; [| discriminate].
    destruct (extract_price t) as [[x |] |] eqn:E; [| apply IH | discriminate].
    destruct (truthy (Some x)) eqn:Ht; [| apply IH].
    intros H. apply IH in H. destruct H as (new & -> & Hnew).
    exists (x :: new). rewrite <- app_assoc. split; [reflexivity |].
    constructor; [apply (truthy_priced _ E Ht) | assumption].
Qed.

(** Every price element's text goes through the extractor, and the
    prices that are not zero are appended in the order of the
    elements. *)
Lemma collect_prices_exact elems : forall texts acc st,
  Forall2 (fun e t => get_text e = Ret t) elems texts ->
  collect_prices elems acc st
  = (Ret (acc ++ filter nonzero (flat_map parsed texts)), st).
Proof.
  induction elems as [|e rest IH]; intros texts acc st H;
    inversion H as [| ? t ? texts' Ht Hrest]; subst; simpl.
  - rewrite app_nil_r. reflexivity.
  - run_monitor. rewrite Ht. unfold parsed at 1.
    destruct (extract_price t) as [[x |] |] eqn:E; simpl.
    + change (negb (Qc_eq_bool x (cents 0))) with (truthy (Some x)).
      unfold nonzero at 1.
      destruct (truthy (Some x)); rewrite (IH _ _ _ Hrest);
        [rewrite <- app_assoc |]; reflexivity.
    + apply (IH _ _ _ Hrest).
    + destruct (extract_price_range t) as [Hn | (q & Hq & _)];
        rewrite E in *; discriminate.
Qed.

(** No record comes out of texts without a price. *)
Lemma collect_prices_none elems : forall acc prices,
  (forall e t, In e elems -> get_text e = Ret t ->
               extract_price t = Ret None) ->
  fst (collect_prices elems acc []) = Ret prices -> prices = acc.
Proof.
  induction elems as [|e rest IH]; intros acc prices Hnone; simpl.
  - intros H. injection H as <-. reflexivity.
  - run_monitor.
    destruct (get_text e) as [t |] eqn:Ht; [| discriminate].
    rewrite (Hnone e t (or_introl eq_refl) Ht).
    apply IH. intros e' t' Hin. apply Hnone. right. assumption.
Qed.
End ListingFacts.

Section ListingCases.
Context {tag : Type} {soup_api : Bs4 tag}.
Variables brand category : string.

(** A listing raises, or is skipped, or appends one record; which of
    the three does not depend on what was collected before. *)
Lemma listing_body_cases product :
  (exists e, forall st,
      listing_body brand category product st = (Raise e, st))
  \/ (forall st, listing_body brand category product st = (Ret tt, st))
  \/ exists prices r,
       yields brand category product prices r
       /\ forall st,
            listing_body brand category product st = (Ret tt, st ++ [r]).
Proof.
  assert (Hrest : forall name_elem,
    resolved_name product name_elem ->
    let rest :=
      (product_name <- lift (get_text name_elem) ;;
       price_elems <- lift (find_all product ["span"; "div"; "p"]
                              price_class) ;;
       prices <- collect_prices price_elems [] ;;
       match prices with
       | [] => ret tt
       | _ :: _ =>
           msrp <- lift (py_max prices) ;;
           sale_price <- lift (py_min prices) ;;
           append {| Product := product_name;
                     Brand := brand;
                     Category := category;
                     MSRP := Some (if (1 <? length prices)%nat
                                   then msrp else msrp);
                     Sale_Price := if (1 <? length prices)%nat
                                   then Some sale_price else None |}
       end) in
    (exists e, forall st, rest st = (Raise e, st))
    \/ (forall st, rest st = (Ret tt, st))
    \/ exists prices r,
         yields brand category product prices r
         /\ forall st, rest st = (Ret tt, st ++ [r])).
  { intros name_elem Hname rest. subst rest.
    destruct (get_text name_elem) as [name | e] eqn:Hn;
      [| left; exists e; intros st; run_monitor; reflexivity].
    destruct (find_all product ["span"; "div"; "p"] price_class)
      as [elems | e] eqn:He;
      [| left; exists e; intros st; run_monitor; reflexivity].
    destruct (fst (collect_prices elems [] [])) as [prices | e] eqn:Hp;
      [| left; exists e; intros st; run_monitor;
         rewrite collect_prices_state, Hp; reflexivity].
    destruct prices as [|p ps];
      [right; left; intros st; run_monitor;
       rewrite collect_prices_state, Hp; reflexivity |].
    destruct (py_max_defined p ps) as (m & Hm).
    destruct (py_min_defined p ps) as (lo & Hlo).
    right. right.
    exists (p :: ps), (listing_record brand category name (p :: ps) m lo).
    split.
    - exists name_elem, name, elems, m, lo.
      repeat (split; [first [assumption | discriminate] |]). reflexivity.
    - intros st. run_monitor.
      rewrite collect_prices_state, Hp, Hm, Hlo.
      unfold listing_record. destruct (1 <? length (p :: ps))%nat;
        reflexivity. }
  unfold listing_body.
  destruct (find product ["h2"; "h3"; "h4"; "a"] (Some name_class))
    as [[name_elem |] | e] eqn:Hf.
  - destruct (Hrest name_elem (or_introl Hf))
      as [(e & H) | [H | (prices & r & Hy & H)]];
      [left; exists e | right; left | right; right; exists prices, r;
                                      split; [assumption |]];
      intros st; exact (H st).
  - destruct (find product ["a"] None) as [[name_elem |] | e] eqn:Ha.
    + destruct (Hrest name_elem (or_intror (conj Hf Ha)))
        as [(e & H) | [H | (prices & r & Hy & H)]];
        [left; exists e | right; left | right; right; exists prices, r;
                                        split; [assumption |]];
        intros st; exact (H st).
    + right. left. intros st. reflexivity.
    + left. exists e. intros st. reflexivity.
  - left. exists e. intros st. reflexivity.
Qed.

(** A listing never raises past its handler, and it appends at most
    one record. *)
Lemma scrape_listing_cases product :
  (forall st, scrape_listing brand category product st = (Ret tt, st))
  \/ exists prices r,
       yields brand category product prices r
       /\ forall st,
            scrape_listing brand category product st
            = (Ret tt, st ++ [r]).
Proof.
  unfold scrape_listing, try_except.
  destruct (listing_body_cases product)
    as [(e & H) | [H | (prices & r & Hy & H)]].
  - left. intros st. rewrite H. reflexivity.
  - left. intros st. rewrite H. reflexivity.
  - right. exists prices, r. split; [assumption |].
    intros st. rewrite H. reflexivity.
Qed.

Lemma app_one_neq (st : list ProductRecord) r : st ++ [r] <> st.
Proof.
  intros H. apply (f_equal (@length _)) in H.
  rewrite length_app in H. simpl in H. lia.
Qed.

(** The record that a listing appended determines what it went
    through. *)
Lemma scrape_listing_record product st r :
  snd (scrape_listing brand category product st) = st ++ [r] ->
  exists prices, yields brand category product prices r.
Proof.
  destruct (scrape_listing_cases product)
    as [H | (prices & r' & Hy & H)]; rewrite H; simpl; intros E.
  - symmetry in E. apply app_one_neq in E. contradiction.
  - apply app_inv_head in E. injection E as <-. eauto.
Qed.

(** The loop over the listings of a page never raises. *)
Lemma for_each_listing_returns products : forall st,
  fst (for_each products (scrape_listing brand category) st) = Ret tt.
Proof.
  induction products as [|p ps IH]; intros st; simpl; [reflexivity |].
  unfold bind.
  destruct (scrape_listing_cases p) as [H | (prices & r & _ & H)];
    rewrite H; apply IH.
Qed.

(** A listing whose body raises is as good as absent from the page. *)
Lemma for_each_listing_skip before bad after e st0 : forall st,
  fst (listing_body brand category bad st0) = Raise e ->
  for_each (before ++ bad :: after) (scrape_listing brand category) st
  = for_each (before ++ after) (scrape_listing brand category) st.
Proof.
  intros st Hbad.
  assert (Hskip : forall st',
             scrape_listing brand category bad st' = (Ret tt, st')).
  { intros st'. unfold scrape_listing, try_except.
    destruct (listing_body_cases bad)
      as [(e' & H) | [H | (prices & r & _ & H)]]; rewrite H;
      try reflexivity; rewrite H in Hbad; discriminate. }
  revert st. induction before as [|p ps IH]; intros st; simpl.
  - unfold bind at 1. rewrite Hskip. reflexivity.
  - unfold bind. destruct (scrape_listing brand category p st) as [[[] | ?] ?];
      [apply IH | reflexivity].
Qed.

(** The record of a listing, from the prices that were collected. *)
Lemma listing_record_inv product st r elems prices :
  find_all product ["span"; "div"; "p"] price_class = Ret elems ->
  collect_prices elems [] st = (Ret prices, st) ->
  snd (scrape_listing brand category product st) = st ++ [r] ->
  exists name msrp sale_price,
    r = listing_record brand category name prices msrp sale_price
    /\ py_max prices = Ret msrp /\ py_min prices = Ret sale_price
    /\ prices <> [] /\ Forall priced prices.
Proof.
  intros He Hp Hr.
  apply scrape_listing_record in Hr.
  destruct Hr as (prices' & ne & name & elems' & m & lo
                  & _ & _ & He' & Hp' & Hne & Hm & Hlo & ->).
  rewrite He in He'. injection He' as <-.
  rewrite collect_prices_state in Hp. injection Hp as Hp.
  rewrite Hp in Hp'. injection Hp' as <-.
  exists name, m, lo. repeat (split; [first [reflexivity | assumption] |]).
  apply collect_prices_priced in Hp. destruct Hp as (new & -> & Hnew).
  assumption.
Qed.
End ListingCases.

(* ================================================================== *)
(** * The price extractor: claims C1 and C10 *)

(** C1.  The claim asks for [extract_price("$1,299.99") = 1299.99].  The
    program removes the commas before it searches, so the three-digit
    limit of the pattern cuts the number: the call answers [129.0].
    ["899"] does give [899.0]. *)
Theorem extract_price_cuts_thousands :
  extract_price "$1,299.99" = Ret (Some (cents 12900))
  /\ cents 12900 <> cents 129999
  /\ extract_price "899" = Ret (Some (cents 89900)).
Proof.
  split; [vm_compute; reflexivity |].
  split; [| vm_compute; reflexivity].
  intros H. apply (f_equal this) in H. vm_compute in H. discriminate.
Qed.

(** C10.  For every input string [extract_price] returns absent or a
    number in the closed interval from 0 to 999.99; it never raises and
    never returns 1000 or more. *)
Theorem extract_price_below_thousand (price_text : string) :
  extract_price price_text = Ret None
  \/ exists q, extract_price price_text = Ret (Some q)
               /\ (cents 0 <= q)%Qc /\ (q <= cents 99999)%Qc
               /\ (q < cents 100000)%Qc.
Proof.
  destruct (extract_price_range price_text) as [H | (q & H & Hlo & Hhi)];
    [left; assumption | right].
  exists q. repeat (split; [assumption |]).
  apply (Qcle_lt_trans _ _ _ Hhi). reflexivity.
Qed.

(* ================================================================== *)
(** * The price fields of a record: claims C2, C3 and C5 *)

Section RecordClaims.
Context {tag : Type} {soup_api : Bs4 tag}.
Variables brand category : string.

(** C2, as amended.  The record of a listing has a sale price exactly
    when more than one price was collected, equal ones counted each;
    when exactly one price was collected the sale price is absent and
    the MSRP is that price. *)
Theorem sale_price_iff_several_prices
  (product : tag) (st : list ProductRecord) (r : ProductRecord)
  (elems : list tag) (prices : list Qc) :
  find_all product ["span"; "div"; "p"] price_class = Ret elems ->
  collect_prices elems [] st = (Ret prices, st) ->
  snd (scrape_listing brand category product st) = st ++ [r] ->
  (Sale_Price r <> None <-> (1 < length prices)%nat)
  /\ (forall p, prices = [p] -> Sale_Price r = None /\ MSRP r = Some p).
Proof.
  intros He Hp Hr.
  destruct (@listing_record_inv _ _ brand category _ _ _ _ _ He Hp Hr)
    as (name & m & lo & -> & Hm & Hlo & Hne & _).
  unfold listing_record. simpl. split.
  - destruct (Nat.ltb_spec 1 (length prices)) as [Hlt | Hge].
    + split; [intros _; assumption | discriminate].
    + split; [intros H; contradiction H; reflexivity | lia].
  - intros p ->. simpl in Hm. injection Hm as <-. auto.
Qed.

(** C3, as amended.  The MSRP of a record is the greatest of the
    collected prices.  Its sale price is the least of them when more
    than one price was collected, and absent when one price was.  Both
    are the same for every reordering of the list.  In particular the
    prices 129.99 and 99.99, in either order, give an MSRP of 129.99
    and a sale price of 99.99. *)
Theorem msrp_max_sale_min_any_order
  (product : tag) (st : list ProductRecord) (r : ProductRecord)
  (elems : list tag) (prices : list Qc) :
  find_all product ["span"; "div"; "p"] price_class = Ret elems ->
  collect_prices elems [] st = (Ret prices, st) ->
  snd (scrape_listing brand category product st) = st ++ [r] ->
  (exists m lo,
      MSRP r = Some m /\ greatest m prices /\ least lo prices
      /\ ((1 < length prices)%nat -> Sale_Price r = Some lo)
      /\ ((length prices <= 1)%nat -> Sale_Price r = None))
  /\ (forall prices',
         Permutation prices prices' ->
         exists m lo,
           py_max prices' = Ret m /\ py_min prices' = Ret lo
           /\ MSRP r = Some m
           /\ ((1 < length prices)%nat -> Sale_Price r = Some lo))
  /\ (Permutation prices [cents 12999; cents 9999] ->
      MSRP r = Some (cents 12999) /\ Sale_Price r = Some (cents 9999)).
Proof.
  intros He Hp Hr.
  destruct (@listing_record_inv _ _ brand category _ _ _ _ _ He Hp Hr)
    as (name & m & lo & -> & Hm & Hlo & Hne & _).
  pose proof (@py_max_greatest _ _ Hm) as Hgr.
  pose proof (@py_min_least _ _ Hlo) as Hle.
  assert (Hsale : (1 < length prices)%nat ->
                  Sale_Price (listing_record brand category name prices m lo)
                  = Some lo).
  { intros Hlt. unfold listing_record. simpl.
    apply Nat.ltb_lt in Hlt. rewrite Hlt. reflexivity. }
  assert (Hany : forall prices',
             Permutation prices prices' ->
             exists m' lo',
               py_max prices' = Ret m' /\ py_min prices' = Ret lo'
               /\ m = m' /\ lo = lo').
  { intros prices' HP. destruct prices' as [|p ps].
    - apply Permutation_sym, Permutation_nil in HP. contradiction.
    - destruct (py_max_defined p ps) as (m' & Hm').
      destruct (py_min_defined p ps) as (lo' & Hlo').
      exists m', lo'. repeat (split; [assumption |]). split.
      + apply (@greatest_perm _ _ _ _ HP Hgr (@py_max_greatest _ _ Hm')).
      + apply (@least_perm _ _ _ _ HP Hle (@py_min_least _ _ Hlo')). }
  assert (Hnone : (length prices <= 1)%nat ->
                  Sale_Price (listing_record brand category name prices m lo)
                  = None).
  { intros Hge. unfold listing_record. simpl.
    destruct (Nat.ltb_spec 1 (length prices)); [lia | reflexivity]. }
  split; [exists m, lo; auto 6 |]. split.
  - intros prices' HP.
    destruct (Hany _ HP) as (m' & lo' & Hm' & Hlo' & <- & <-).
    exists m, lo. auto.
  - intros HP.
    destruct (Hany _ HP) as (m' & lo' & Hm' & Hlo' & -> & ->).
    vm_compute in Hm'. injection Hm' as <-.
    vm_compute in Hlo'. injection Hlo' as <-.
    split; [reflexivity |]. apply Hsale.
    apply Permutation_length in HP. simpl in HP. lia.
Qed.

(** C5.  Every record of a listing has an MSRP between 0 and 999.99,
    and when it has a sale price, that price is not negative and not
    above the MSRP. *)
Theorem record_prices_ordered
  (product : tag) (st : list ProductRecord) (r : ProductRecord) :
  snd (scrape_listing brand category product st) = st ++ [r] ->
  exists m,
    MSRP r = Some m
    /\ (cents 0 <= m)%Qc /\ (m <= cents 99999)%Qc
    /\ forall s, Sale_Price r = Some s ->
                 (cents 0 <= s)%Qc /\ (s <= m)%Qc.
Proof.
  intros Hr.
  destruct (@scrape_listing_record _ _ brand category _ _ _ Hr)
    as (prices & ne & name & elems & m & lo
        & _ & _ & _ & Hp & Hne & Hm & Hlo & ->).
  apply collect_prices_priced in Hp. destruct Hp as (new & -> & Hall).
  simpl in Hall. rewrite Forall_forall in Hall.
  destruct (@py_max_greatest _ _ Hm) as [Hmin Hmle].
  destruct (@py_min_least _ _ Hlo) as [Hloin Hlole].
  exists m. split; [reflexivity |].
  destruct (Hall _ Hmin) as [Hm0 Hm9].
  split; [apply Qclt_le_weak; assumption |]. split; [assumption |].
  intros s Hs. unfold listing_record in Hs. simpl in Hs.
  destruct (1 <? length new)%nat; [| discriminate].
  injection Hs as <-. split.
  - apply Qclt_le_weak. apply (Hall _ Hloin).
  - apply Hlole. assumption.
Qed.
End RecordClaims.

(* ================================================================== *)
(** * Collecting and skipping: claims C4, C6 and C7 *)

Section ListingClaims.
Context {tag : Type} {soup_api : Bs4 tag}.
Variables brand category : string.

(** C4, as amended.  The text of every price element is run through
    the price extractor, and every parsed price that is not zero is
    appended to the price list, in document order. *)
Theorem nonzero_prices_collected_in_order
  (elems : list tag) (texts : list string) (st : list ProductRecord) :
  Forall2 (fun price_elem price_text =>
             get_text price_elem = Ret price_text) elems texts ->
  collect_prices elems [] st
  = (Ret (filter nonzero (flat_map parsed texts)), st).
Proof.
  intros H. apply (collect_prices_exact [] st H).
Qed.

(** C6.  A listing yields no record, and raises nothing, (a) when
    neither a name element nor a link is found in it, and (b) when
    none of the texts of its price elements has a price. *)
Theorem no_record_without_name_or_price
  (product : tag) (st : list ProductRecord) :
  (find product ["h2"; "h3"; "h4"; "a"] (Some name_class) = Ret None
   /\ find product ["a"] None = Ret None)
  \/ (exists elems,
         find_all product ["span"; "div"; "p"] price_class = Ret elems
         /\ forall e t, In e elems -> get_text e = Ret t ->
                        extract_price t = Ret None) ->
  scrape_listing brand category product st = (Ret tt, st).
Proof.
  intros [[Hf Ha] | (elems & He & Hnone)].
  - unfold scrape_listing, listing_body. run_monitor.
    rewrite Hf, Ha. reflexivity.
  - destruct (@scrape_listing_cases _ _ brand category product)
      as [H | (prices & r & Hy & _)]; [apply H |].
    destruct Hy as (ne & name & elems' & m & lo
                    & _ & _ & He' & Hp & Hne & _).
    rewrite He in He'. injection He' as <-.
    apply (collect_prices_none _ _ Hnone) in Hp. contradiction.
Qed.

(** C7.  When the body of a listing raises, the listing counts as no
    record: the handler leaves the products as they were, the loop
    over the page goes on with the remaining listings exactly as if
    the listing were not there, and the loop itself does not raise. *)
Theorem listing_exception_contained
  (before after : list tag) (bad : tag) (e : exn)
  (st0 st : list ProductRecord) :
  fst (listing_body brand category bad st0) = Raise e ->
  scrape_listing brand category bad st = (Ret tt, st)
  /\ for_each (before ++ bad :: after) (scrape_listing brand category) st
     = for_each (before ++ after) (scrape_listing brand category) st
  /\ fst (for_each (before ++ bad :: after)
            (scrape_listing brand category) st) = Ret tt.
Proof.
  intros Hbad. split; [| split].
  - pose proof (@for_each_listing_skip _ _ brand category
                  [] bad [] e st0 st Hbad) as H.
    simpl in H. unfold bind, ret in H.
    destruct (scrape_listing brand category bad st) as [[[] | e'] st'];
      [assumption | discriminate].
  - apply (@for_each_listing_skip _ _ brand category _ _ _ e st0 st Hbad).
  - apply for_each_listing_returns.
Qed.
End ListingClaims.

(* ================================================================== *)
(** * Failed fetches: claim C8 *)

Section FetchClaims.
Context {tag : Type} {soup_api : Bs4 tag}.
Variable http_get : string -> outcome tag.

Lemma for_each_skip {X} (body : X -> M unit) before x after :
  (forall st, body x st = (Ret tt, st)) ->
  forall st,
    for_each (before ++ x :: after) body st
    = for_each (before ++ after) body st.
Proof.
  intros Hx. induction before as [|y ys IH]; intros st; simpl.
  - unfold bind at 1. rewrite Hx. reflexivity.
  - unfold bind. destruct (body y st) as [[[] | ?] ?];
      [apply IH | reflexivity].
Qed.

(** C8.  When the fetch of a category page returns absent, the
    category appends nothing and raises nothing; the retailer's run
    is the run over its other categories, and the retailers that
    follow start from the same products. *)
Theorem failed_fetch_skips_category
  (brand category url : string) (before after : list (string * string))
  (st : list ProductRecord) :
  fetch_page http_get url = None ->
  scrape_category http_get brand (category, url) st = (Ret tt, st)
  /\ scrape_site http_get brand (before ++ (category, url) :: after) st
     = scrape_site http_get brand (before ++ after) st
  /\ forall next : M unit,
       (scrape_site http_get brand (before ++ (category, url) :: after)
        ;;; next) st
       = (scrape_site http_get brand (before ++ after) ;;; next) st.
Proof.
  intros Hf.
  assert (Hskip : forall st',
             scrape_category http_get brand (category, url) st'
             = (Ret tt, st')).
  { intros st'. unfold scrape_category. rewrite Hf. reflexivity. }
  split; [apply Hskip |].
  assert (Hsite : scrape_site http_get brand
                    (before ++ (category, url) :: after) st
                  = scrape_site http_get brand (before ++ after) st).
  { unfold scrape_site. apply for_each_skip. assumption. }
  split; [assumption |].
  intros next. unfold bind. rewrite Hsite. reflexivity.
Qed.
End FetchClaims.

(* ================================================================== *)
(** * The statements at sample documents *)

(** In the document model [find] answers [None] exactly when no node
    below is selected: no matching element anywhere in the fragment. *)
Lemma dom_find_none n names r :
  Dom.find n names r = None
  <-> forall d, In d (Dom.descendants n) -> Dom.selects names r d = false.
Proof.
  unfold Dom.find. generalize (Dom.descendants n) as l.
  induction l as [|x l IH]; simpl.
  - split; [intros _ d [] | reflexivity].
  - destruct (Dom.selects names r x) eqn:E; simpl.
    + split; [discriminate |]. intros H.
      rewrite (H x (or_introl eq_refl)) in E. discriminate.
    + rewrite IH. split.
      * intros H d [<- | Hd]; auto.
      * intros H d Hd. apply H. right. assumption.
Qed.

Section Examples.
Import Samples.

(** On the text as it is, commas included, the price pattern does read
    a price in the thousands. *)
Example price_pattern_reads_thousands :
  search price_re (list_ascii_of_string "$1,299.99")
  = Some (Some (list_ascii_of_string "1,299.99"))
  /\ float (remove_char "," (list_ascii_of_string "1,299.99"))
     = Ret (cents 129999).
Proof. split; vm_compute; reflexivity. Qed.

(** The end-to-end scenario: of the two listings of the page only
    Model A, which has prices, gives a record. *)
Example two_listings_one_record :
  scrape_category (soup_api := Dom.dom) (fun _ => Ret two_listings)
    "Bowflex" ("Treadmills", "https://www.bowflex.com/treadmills/") []
  = (Ret tt, [model_a]).
Proof. vm_compute. reflexivity. Qed.

Example extract_price_no_digits :
  extract_price "Call for price" = Ret None.
Proof. vm_compute. reflexivity. Qed.

Example extract_price_first_match :
  extract_price "was $99.99 now $79" = Ret (Some (cents 9999)).
Proof. vm_compute. reflexivity. Qed.

(** C2 as stated fails on a price element nested in another: the same
    price is collected twice, so there is one distinct price and yet
    a sale price. *)
Lemma sale_price_with_one_distinct_price :
  collect_prices (soup_api := Dom.dom)
    (Dom.find_all nested_price ["span"; "div"; "p"] price_class) [] []
  = (Ret [cents 9999; cents 9999], [])
  /\ snd (scrape_listing (soup_api := Dom.dom) "Bowflex" "Treadmills"
            nested_price []) = [bike]
  /\ ~ (Sale_Price bike <> None
        <-> (1 < length (distinct [cents 9999; cents 9999]))%nat).
Proof.
  split; [vm_compute; reflexivity |].
  split; [vm_compute; reflexivity |].
  intros [H _]. assert (Hs : Sale_Price bike <> None) by discriminate.
  apply H in Hs. vm_compute in Hs. lia.
Qed.

Lemma sale_price_iff_several_prices_witness :
  (Sale_Price model_a <> None
   <-> (1 < length [cents 99900; cents 79900])%nat)
  /\ (forall p, [cents 99900; cents 79900] = [p] ->
                Sale_Price model_a = None /\ MSRP model_a = Some p).
Proof.
  apply (@sale_price_iff_several_prices Dom.node Dom.dom "Bowflex" "Treadmills"
           (listing "Model A" ["$999.00"; "$799.00"]) [] model_a
           [price_span "$999.00"; price_span "$799.00"]
           [cents 99900; cents 79900]);
    vm_compute; reflexivity.
Defined.

Lemma msrp_max_sale_min_any_order_witness :
  MSRP reduced = Some (cents 12999)
  /\ Sale_Price reduced = Some (cents 9999).
Proof.
  apply (@msrp_max_sale_min_any_order Dom.node Dom.dom "Schwinn" "Home Gyms"
           (listing "Rower" ["$99.99"; "$129.99"]) [] reduced
           [price_span "$99.99"; price_span "$129.99"]
           [cents 9999; cents 12999]);
    try (vm_compute; reflexivity).
  apply perm_swap.
Defined.

(** C3 as stated fails on a listing with one price element: the least
    of the collected prices is that price, and the record has no sale
    price. *)
Lemma sale_price_absent_at_one_price :
  collect_prices (soup_api := Dom.dom)
    (Dom.find_all (listing "Model C" ["$5.00"]) ["span"; "div"; "p"]
       price_class) [] []
  = (Ret [cents 500], [])
  /\ snd (scrape_listing (soup_api := Dom.dom) "Bowflex" "Treadmills"
            (listing "Model C" ["$5.00"]) []) = [model_c]
  /\ py_min [cents 500] = Ret (cents 500)
  /\ Sale_Price model_c <> Some (cents 500).
Proof.
  split; [vm_compute; reflexivity |].
  split; [vm_compute; reflexivity |].
  split; [vm_compute; reflexivity | discriminate].
Qed.

Lemma record_prices_ordered_witness :
  exists m,
    MSRP model_a = Some m
    /\ (cents 0 <= m)%Qc /\ (m <= cents 99999)%Qc
    /\ forall s, Sale_Price model_a = Some s ->
                 (cents 0 <= s)%Qc /\ (s <= m)%Qc.
Proof.
  apply (@record_prices_ordered Dom.node Dom.dom "Bowflex" "Treadmills"
           (listing "Model A" ["$999.00"; "$799.00"]) [] model_a).
  vm_compute. reflexivity.
Defined.

(** C4 as stated fails on a price of zero: the text parses, to 0, and
    the price is not appended. *)
Lemma zero_price_not_collected :
  get_text (Bs4 := Dom.dom) (price_span "$0.00") = Ret "$0.00"
  /\ extract_price "$0.00" = Ret (Some (cents 0))
  /\ collect_prices (soup_api := Dom.dom) [price_span "$0.00"] [] []
     = (Ret [], [])
  /\ ~ In (cents 0) [].
Proof.
  repeat (split; [vm_compute; reflexivity |]). intros [].
Qed.

Lemma nonzero_prices_collected_in_order_witness :
  collect_prices (soup_api := Dom.dom)
    [price_span "$999.00"; price_span "$0.00"; price_span "call us";
     price_span "$799.00"] [] []
  = (Ret (filter nonzero
            (flat_map parsed ["$999.00"; "$0.00"; "call us"; "$799.00"])),
     []).
Proof.
  apply (@nonzero_prices_collected_in_order Dom.node Dom.dom).
  repeat constructor.
Defined.

Lemma no_record_without_name_or_price_witness :
  scrape_listing (soup_api := Dom.dom) "Bowflex" "Treadmills" nameless []
  = (Ret tt, [])
  /\ scrape_listing (soup_api := Dom.dom) "Bowflex" "Treadmills"
       (listing "Model B" ["Call for price"]) [] = (Ret tt, []).
Proof.
  split.
  - apply (@no_record_without_name_or_price Dom.node Dom.dom).
    left. split; vm_compute; reflexivity.
  - apply (@no_record_without_name_or_price Dom.node Dom.dom).
    right. exists [price_span "Call for price"].
    split; [vm_compute; reflexivity |].
    intros e t [<- | []] Ht. vm_compute in Ht. injection Ht as <-.
    vm_compute. reflexivity.
Defined.

Lemma listing_exception_contained_witness :
  scrape_listing (soup_api := broken) "Bowflex" "Treadmills"
    (article "Model X") [] = (Ret tt, [])
  /\ for_each
       ([listing "Model A" ["$999.00"; "$799.00"]]
        ++ article "Model X" :: [listing "Model C" ["$5.00"]])
       (scrape_listing (soup_api := broken) "Bowflex" "Treadmills") []
     = for_each
         ([listing "Model A" ["$999.00"; "$799.00"]]
          ++ [listing "Model C" ["$5.00"]])
         (scrape_listing (soup_api := broken) "Bowflex" "Treadmills") []
  /\ fst (for_each
            ([listing "Model A" ["$999.00"; "$799.00"]]
             ++ article "Model X" :: [listing "Model C" ["$5.00"]])
            (scrape_listing (soup_api := broken) "Bowflex" "Treadmills")
            []) = Ret tt.
Proof.
  apply (@listing_exception_contained Dom.node broken "Bowflex" "Treadmills"
           _ _ _ AttributeError []).
  vm_compute. reflexivity.
Defined.

Lemma failed_fetch_skips_category_witness :
  scrape_category (soup_api := Dom.dom) bikes_refused "Bowflex"
    ("Indoor Cycling Bikes", "https://www.bowflex.com/bikes/") []
  = (Ret tt, [])
  /\ scrape_site (soup_api := Dom.dom) bikes_refused "Bowflex"
       ([("Treadmills", "https://www.bowflex.com/treadmills/")]
        ++ ("Indoor Cycling Bikes", "https://www.bowflex.com/bikes/")
        :: [("Home Gyms", "https://www.bowflex.com/strength/")]) []
     = scrape_site (soup_api := Dom.dom) bikes_refused "Bowflex"
         ([("Treadmills", "https://www.bowflex.com/treadmills/")]
          ++ [("Home Gyms", "https://www.bowflex.com/strength/")]) []
  /\ forall next : M unit,
       (scrape_site (soup_api := Dom.dom) bikes_refused "Bowflex"
          ([("Treadmills", "https://www.bowflex.com/treadmills/")]
           ++ ("Indoor Cycling Bikes", "https://www.bowflex.com/bikes/")
           :: [("Home Gyms", "https://www.bowflex.com/strength/")])
        ;;; next) []
       = (scrape_site (soup_api := Dom.dom) bikes_refused "Bowflex"
            ([("Treadmills", "https://www.bowflex.com/treadmills/")]
             ++ [("Home Gyms", "https://www.bowflex.com/strength/")])
          ;;; next) [].
Proof.
  apply (@failed_fetch_skips_category Dom.node Dom.dom bikes_refused).
  vm_compute. reflexivity.
Defined.
End Examples.

(* ================================================================== *)
(** * The price pattern on a text without commas, step by step *)

Lemma take_digits_split n : forall s,
  s = fst (take_digits n s) ++ snd (take_digits n s)
  /\ forallb is_digit (fst (take_digits n s)) = true
  /\ (length (fst (take_digits n s)) <= n)%nat.
Proof.
  induction n as [|n IH]; intros s; simpl.
  - repeat split; auto.
  - destruct s as [|c s]; simpl; [repeat split; auto; lia |].
    destruct (is_digit c) eqn:Hc; simpl; [| repeat split; auto; lia].
    destruct (IH s) as (Hs & Hd & Hl).
    destruct (take_digits n s) as [ds r]. simpl in *.
    rewrite Hc, Hd. repeat split; [f_equal; assumption | lia].
Qed.

Lemma take_digits_cons n c s :
  is_digit c = true ->
  take_digits (S n) (c :: s)
  = (c :: fst (take_digits n s), snd (take_digits n s)).
Proof.
  intros Hc. change (take_digits (S n) (c :: s))
    with (if is_digit c
          then let '(ds, r) := take_digits n s in (c :: ds, r)
          else ([], c :: s)).
  rewrite Hc. destruct (take_digits n s). reflexivity.
Qed.

Lemma take_fraction_split s :
  s = fst (take_fraction s) ++ snd (take_fraction s).
Proof.
  unfold take_fraction.
  destruct s as [|dot [|d1 [|d2 r]]]; try reflexivity.
  destruct (Ascii.eqb dot "." && is_digit d1 && is_digit d2); reflexivity.
Qed.

Lemma not_in_app_r (c : ascii) (u v : text) : ~ In c (u ++ v) -> ~ In c v.
Proof. intros H Hin. apply H. apply in_or_app. right. assumption. Qed.

Section GreedySteps.
Variable R : Type.

Lemma exec_lit_seq (k : cont R) a r s cap :
  exec (Seq (lit a) r) s cap k
  = match s with
    | c :: s' => if Ascii.eqb a c then exec r s' cap k else None
    | [] => None
    end.
Proof. destruct s; reflexivity. Qed.

Lemma rep_two_digits (k : cont R) s cap :
  rep_loop (exec (Chr is_digit)) k 2 2 s cap
  = match s with
    | d1 :: d2 :: r => if is_digit d1 && is_digit d2 then k r cap else None
    | _ => None
    end.
Proof.
  destruct s as [|d1 [|d2 r]]; cbn [rep_loop exec Nat.pred or_else];
    try reflexivity.
  - destruct (is_digit d1); reflexivity.
  - destruct (is_digit d1); [| reflexivity].
    destruct (is_digit d2); cbn [andb or_else]; [| reflexivity].
    destruct (k r cap); reflexivity.
Qed.

(** Without a comma ahead, the comma groups take nothing. *)
Lemma star_commas_skip (k : cont R) fuel s cap :
  ~ In ","%char s ->
  star_loop (exec (Seq (lit ",") (Rep 3 3 (Chr is_digit)))) k fuel s cap
  = k s cap.
Proof.
  intros Hno. destruct fuel as [|fuel]; [reflexivity |].
  cbn [star_loop]. rewrite exec_lit_seq.
  destruct s as [|c s]; [reflexivity |].
  destruct (Ascii.eqb_spec ","%char c) as [<- | Hne]; [| reflexivity].
  exfalso. apply Hno. simpl. auto.
Qed.

(** The optional fraction is taken when it is there and the rest of
    the pattern matches after it. *)
Lemma exec_fraction (k : cont R) s cap x :
  k (snd (take_fraction s)) cap = Some x ->
  exec (Opt (Seq (lit ".") (Rep 2 2 (Chr is_digit)))) s cap k = Some x.
Proof.
  intros H.
  change (exec (Opt (Seq (lit ".") (Rep 2 2 (Chr is_digit)))) s cap k)
    with (or_else (exec (Seq (lit ".") (Rep 2 2 (Chr is_digit))) s cap k)
            (k s cap)).
  rewrite exec_lit_seq. unfold take_fraction in H.
  destruct s as [|dot s']; [cbn [snd] in H; rewrite H; reflexivity |].
  change (exec (Rep 2 2 (Chr is_digit)) s' cap k)
    with (rep_loop (exec (Chr is_digit)) k 2 2 s' cap).
  rewrite rep_two_digits, (Ascii.eqb_sym "."%char dot).
  destruct s' as [|d1 [|d2 r]];
    try (cbn [snd] in H; rewrite H;
         destruct (Ascii.eqb dot "."); reflexivity).
  destruct (Ascii.eqb dot "."); cbn [andb] in *;
    [| cbn [snd] in H; rewrite H; reflexivity].
  destruct (is_digit d1 && is_digit d2); cbn [snd] in H; rewrite H;
    reflexivity.
Qed.

(** The digits are taken greedily when the rest of the pattern matches
    after the longest run. *)
Lemma rep_digits_greedy (K : cont R) cap x hi : forall lo s,
  (lo <= length (fst (take_digits hi s)))%nat ->
  K (snd (take_digits hi s)) cap = Some x ->
  rep_loop (exec (Chr is_digit)) K lo hi s cap = Some x.
Proof.
  induction hi as [|hi IH]; intros lo s Hlo HK;
    cbn [rep_loop take_digits] in *.
  - cbn [fst snd length] in *. destruct lo; [assumption | lia].
  - destruct s as [|c s]; cbn [exec fst snd length or_else] in *.
    + destruct lo; [assumption | lia].
    + destruct (is_digit c) eqn:Hc.
      * destruct (take_digits hi s) as [ds r] eqn:E.
        cbn [fst snd length] in *.
        rewrite (IH (pred lo) s); [reflexivity | |];
          rewrite E; cbn [fst snd]; [lia | assumption].
      * cbn [fst snd length or_else] in *. destruct lo; [assumption | lia].
Qed.

Lemma rep_digits_none (K : cont R) cap lo hi s :
  match s with c :: _ => is_digit c = false | [] => True end ->
  rep_loop (exec (Chr is_digit)) K (S lo) hi s cap = None.
Proof.
  destruct hi as [|hi]; cbn [rep_loop]; [reflexivity |].
  destruct s as [|c s]; cbn [exec or_else]; [reflexivity |].
  intros ->. reflexivity.
Qed.
End GreedySteps.

Lemma firstn_prefix (u v : text) :
  firstn (length (u ++ v) - length v) (u ++ v) = u.
Proof.
  rewrite length_app, Nat.add_sub, firstn_app, Nat.sub_diag, firstn_all.
  simpl. apply app_nil_r.
Qed.

Lemma exec_group_number_steps s cap :
  exec (Group price_number) s cap (fun _ c => Some c)
  = rep_loop (exec (Chr is_digit))
      (fun s1 c1 =>
         star_loop (exec (Seq (lit ",") (Rep 3 3 (Chr is_digit))))
           (fun s2 c2 =>
              exec (Opt (Seq (lit ".") (Rep 2 2 (Chr is_digit)))) s2 c2
                (fun s3 _ =>
                   Some (Some (firstn (length s - length s3) s))))
           (length s1) s1 c1)
      1 3 s cap.
Proof. reflexivity. Qed.

(** At a digit the group takes [number_at]; elsewhere it fails. *)
Lemma exec_group_number s cap :
  ~ In ","%char s ->
  exec (Group price_number) s cap (fun _ c => Some c)
  = match s with
    | c :: _ => if is_digit c then Some (Some (number_at s)) else None
    | [] => None
    end.
Proof.
  intros Hno. rewrite exec_group_number_steps.
  destruct s as [|c s]; [apply rep_digits_none; exact I |].
  destruct (is_digit c) eqn:Hc; [| apply rep_digits_none; assumption].
  destruct (take_digits_split 3 (c :: s)) as (Hs & Hds & Hlen).
  pose proof (take_fraction_split (snd (take_digits 3 (c :: s)))) as Hf.
  apply rep_digits_greedy.
  - rewrite (@take_digits_cons 2 c s Hc). cbn [fst length]. lia.
  - rewrite star_commas_skip
      by (apply not_in_app_r with (u := fst (take_digits 3 (c :: s)));
          rewrite <- Hs; assumption).
    apply exec_fraction. do 2 f_equal.
    unfold number_at.
    destruct (take_digits 3 (c :: s)) as [ds r]. cbn [fst snd] in *.
    destruct (take_fraction r) as [fr rest]. cbn [fst snd] in *.
    rewrite Hs, Hf, app_assoc. apply firstn_prefix.
Qed.

Lemma is_space_not_digit c : is_space c = true -> is_digit c = false.
Proof.
  destruct c as [[] [] [] [] [] [] [] []]; vm_compute; congruence.
Qed.

Lemma first_number_skip w s :
  digit_free w = true -> first_number (w ++ s) = first_number s.
Proof.
  induction w as [|c w IH]; simpl; [reflexivity |].
  intros H. apply andb_prop in H. destruct H as [Hc Hw].
  apply negb_true_iff in Hc. rewrite Hc. apply IH. assumption.
Qed.

Lemma lang_price_prefix_digit_free w :
  lang (Seq (Opt (lit "$")) (Star (Chr is_space))) w -> digit_free w = true.
Proof.
  intros (w1 & w2 & -> & H1 & (n & H2)).
  apply power_chr in H2. destruct H2 as [_ H2].
  assert (Hw2 : digit_free w2 = true).
  { unfold digit_free. apply forallb_forall. intros c Hc.
    rewrite forallb_forall in H2.
    rewrite (is_space_not_digit _ (H2 c Hc)). reflexivity. }
  unfold digit_free in *. rewrite forallb_app, Hw2, andb_true_r.
  destruct H1 as [-> | (c & -> & Hc)]; [reflexivity |].
  change (Ascii.eqb "$" c = true) in Hc. apply Ascii.eqb_eq in Hc.
  subst c. reflexivity.
Qed.

(** A match of the price pattern at the head of a text captures the
    first number of the text. *)
Lemma exec_price_first_number s m :
  ~ In ","%char s ->
  exec price_re s None (fun _ c => Some c) = Some m ->
  exists w, first_number s = Some w /\ m = Some w.
Proof.
  intros Hno H.
  change (exec (Seq (Opt (lit "$")) (Star (Chr is_space))) s None
            (fun s1 c1 => exec (Group price_number) s1 c1
                            (fun _ c => Some c)) = Some m) in H.
  apply exec_sound in H. destruct H as (w0 & s1 & c1 & -> & Hw0 & H).
  rewrite exec_group_number in H by (eapply not_in_app_r; exact Hno).
  apply lang_price_prefix_digit_free in Hw0.
  rewrite first_number_skip by exact Hw0.
  destruct s1 as [|c s1]; [discriminate |].
  simpl first_number.
  destruct (is_digit c); [| discriminate].
  injection H as <-. eauto.
Qed.

(** At a digit the price pattern matches. *)
Lemma exec_price_at_digit c s :
  ~ In ","%char (c :: s) -> is_digit c = true ->
  exec price_re (c :: s) None (fun _ cap => Some cap)
  = Some (Some (number_at (c :: s))).
Proof.
  intros Hno Hc.
  pose proof (@exec_group_number (c :: s) None Hno) as HG.
  cbv beta iota in HG. rewrite Hc in HG.
  assert (Hd : Ascii.eqb "$" c = false).
  { destruct (Ascii.eqb_spec "$"%char c) as [<- |]; [discriminate | auto]. }
  assert (Hs : is_space c = false).
  { destruct (is_space c) eqn:E; [| reflexivity].
    apply is_space_not_digit in E. congruence. }
  change (exec price_re (c :: s) None (fun _ cap => Some cap))
    with (or_else
            (if Ascii.eqb "$" c
             then star_loop (exec (Chr is_space))
                    (fun s1 c1 => exec (Group price_number) s1 c1
                                    (fun _ cap => Some cap))
                    (length s) s None
             else None)
            (or_else
               (if is_space c
                then if (length s <? length (c :: s))%nat
                     then star_loop (exec (Chr is_space))
                            (fun s1 c1 => exec (Group price_number) s1 c1
                                            (fun _ cap => Some cap))
                            (length s) s None
                     else None
                else None)
               (exec (Group price_number) (c :: s) None
                  (fun _ cap => Some cap)))).
  rewrite Hd, Hs. cbn [or_else]. exact HG.
Qed.

Lemma search_steps r s :
  search r s
  = match exec r s None (fun _ cap => Some cap) with
    | Some m => Some m
    | None => match s with [] => None | _ :: s' => search r s' end
    end.
Proof. destruct s; reflexivity. Qed.

(** [search] with the price pattern finds the first number. *)
Lemma search_price_first_number s :
  ~ In ","%char s ->
  search price_re s = option_map Some (first_number s).
Proof.
  induction s as [|c s IH]; intros Hno; rewrite search_steps.
  - destruct (exec price_re [] None (fun _ cap => Some cap))
      as [m |] eqn:E; [| reflexivity].
    apply exec_price_first_number in E; [| assumption].
    destruct E as (w & Hw & _). discriminate.
  - destruct (exec price_re (c :: s) None (fun _ cap => Some cap))
      as [m |] eqn:E.
    + apply exec_price_first_number in E; [| assumption].
      destruct E as (w & -> & ->). reflexivity.
    + destruct (is_digit c) eqn:Hc.
      * rewrite (@exec_price_at_digit c s Hno Hc) in E. discriminate.
      * cbn [first_number]. rewrite Hc. apply IH.
        intros Hin. apply Hno. right. assumption.
Qed.

(* ================================================================== *)
(** * The number that [extract_price] reads *)

Lemma take_digits_run n ds r :
  forallb is_digit ds = true -> (length ds <= n)%nat ->
  (length ds = n
   \/ match r with c :: _ => is_digit c = false | [] => True end) ->
  take_digits n (ds ++ r) = (ds, r).
Proof.
  revert ds. induction n as [|n IH]; intros ds Hds Hlen Hend.
  - destruct ds; [reflexivity | simpl in Hlen; lia].
  - destruct ds as [|d ds]; simpl in *.
    + destruct r as [|c r]; [reflexivity |].
      destruct Hend as [Hend | ->]; [lia | reflexivity].
    + apply andb_prop in Hds. destruct Hds as [Hd Hds].
      rewrite Hd, IH; [reflexivity | assumption | lia |].
      destruct Hend as [Hend | Hend]; [left; lia | right; assumption].
Qed.

Lemma number_at_plain c s :
  is_digit c = true ->
  plain_price (number_at (c :: s))
  /\ exists rest, c :: s = number_at (c :: s) ++ rest.
Proof.
  intros Hc. unfold number_at.
  destruct (take_digits_split 3 (c :: s)) as (Hs & Hds & Hlen).
  rewrite (@take_digits_cons 2 c s Hc) in *. cbn [fst snd] in *.
  set (ds := fst (take_digits 2 s)) in *.
  set (r := snd (take_digits 2 s)) in *.
  pose proof (take_fraction_split r) as Hf.
  split.
  - exists (c :: ds), (fst (take_fraction r)).
    split; [reflexivity |]. split; [simpl in *; lia |].
    split; [assumption |].
    unfold take_fraction. destruct r as [|dot [|d1 [|d2 r']]]; auto.
    destruct (Ascii.eqb dot "." && is_digit d1 && is_digit d2) eqn:E;
      [| auto].
    apply andb_prop in E. destruct E as [E Hd2].
    apply andb_prop in E. destruct E as [Hdot Hd1].
    apply Ascii.eqb_eq in Hdot. subst dot. right. exists d1, d2. auto.
  - exists (snd (take_fraction r)).
    rewrite <- app_assoc, <- Hf. exact Hs.
Qed.

Lemma first_number_inv s : forall w,
  first_number s = Some w ->
  exists pre rest,
    s = pre ++ w ++ rest /\ digit_free pre = true /\ plain_price w.
Proof.
  induction s as [|c s IH]; intros w; cbn [first_number]; [discriminate |].
  destruct (is_digit c) eqn:Hc.
  - intros H. injection H as <-.
    destruct (@number_at_plain c s Hc) as (Hp & rest & Hs).
    exists [], rest. auto.
  - intros H. apply IH in H. destruct H as (pre & rest & -> & Hpre & Hw).
    exists (c :: pre), rest. split; [reflexivity |]. split; [| assumption].
    simpl. rewrite Hc. assumption.
Qed.

Lemma first_number_none s :
  first_number s = None <-> digit_free s = true.
Proof.
  induction s as [|c s IH]; cbn [first_number digit_free forallb].
  - tauto.
  - destruct (is_digit c); cbn [negb andb]; [| exact IH].
    split; discriminate.
Qed.

Lemma remove_char_app c u v :
  remove_char c (u ++ v) = remove_char c u ++ remove_char c v.
Proof. apply filter_app. Qed.

Lemma remove_comma_digits ds :
  forallb is_digit ds = true -> remove_char "," ds = ds.
Proof.
  intros H. apply remove_char_absent. intros Hin.
  rewrite forallb_forall in H. apply H in Hin. discriminate.
Qed.

Lemma digit_free_remove_char c s :
  digit_free s = true -> digit_free (remove_char c s) = true.
Proof.
  unfold digit_free, remove_char. rewrite !forallb_forall.
  intros H x Hx. apply filter_In in Hx. apply H. tauto.
Qed.

Lemma digit_free_remove_comma s :
  digit_free (remove_char "," s) = digit_free s.
Proof.
  induction s as [|c s IH]; [reflexivity |].
  unfold remove_char in *. cbn [filter].
  destruct (Ascii.eqb_spec c ","%char) as [-> | Hne]; cbn [negb].
  - rewrite IH. reflexivity.
  - unfold digit_free in *. cbn [forallb]. rewrite IH. reflexivity.
Qed.

(** What [extract_price] computes: [float] of the first number of the
    text with its commas removed. *)
Lemma extract_price_scan text :
  extract_price text
  = match first_number (remove_char "," (list_ascii_of_string text)) with
    | None => Ret None
    | Some w =>
        match float w with
        | Ret x => Ret (Some x)
        | Raise e => Raise e
        end
    end.
Proof.
  unfold extract_price.
  destruct (list_ascii_of_string text) as [|c s] eqn:E; [reflexivity |].
  cbn [length Nat.eqb].
  rewrite search_price_first_number by apply remove_char_not_in.
  destruct (first_number (remove_char "," (c :: s))) as [w |] eqn:Hw;
    [| reflexivity].
  cbn [option_map].
  apply first_number_inv in Hw. destruct Hw as (pre & rest & Hs & _ & _).
  rewrite remove_char_absent; [reflexivity |].
  intros Hin. apply (@remove_char_not_in ","%char (c :: s)).
  rewrite Hs. apply in_or_app. right. apply in_or_app. left. assumption.
Qed.

Lemma float_whole ds :
  forallb is_digit ds = true -> (1 <= length ds)%nat ->
  float ds = Ret (to_float (Qmake (digits_value ds) 1)).
Proof.
  intros Hds Hlen. unfold float.
  destruct (split_at_dot_digits ds Hds) as [_ ->].
  rewrite Hds. cbn [forallb length andb Z.of_nat].
  destruct (length ds =? 0)%nat eqn:E; [apply Nat.eqb_eq in E; lia |].
  cbn [andb negb].
  change (digits_value []) with 0%Z.
  change (Z.to_pos (10 ^ 0)) with 1%positive.
  change (10 ^ 0)%Z with 1%Z.
  rewrite Z.mul_1_r, Z.add_0_r. reflexivity.
Qed.

Lemma float_fraction ds d1 d2 :
  forallb is_digit ds = true -> (1 <= length ds)%nat ->
  is_digit d1 = true -> is_digit d2 = true ->
  float (ds ++ ["."%char; d1; d2])
  = Ret (to_float
           (Qmake (digits_value ds * 100 + digits_value [d1; d2]) 100)).
Proof.
  intros Hds Hlen Hd1 Hd2. unfold float.
  destruct (split_at_dot_digits ds Hds) as [-> _].
  rewrite Hds. cbn [forallb length andb Nat.eqb]. rewrite Hd1, Hd2.
  destruct (length ds =? 0)%nat eqn:E; [apply Nat.eqb_eq in E; lia |].
  cbn [andb negb]. reflexivity.
Qed.

Lemma is_digit_eqb_comma c : is_digit c = true -> Ascii.eqb c "," = false.
Proof.
  intros H. destruct (Ascii.eqb_spec c ","%char) as [-> |]; [discriminate |].
  reflexivity.
Qed.

Lemma remove_char_cons_keep old c s :
  Ascii.eqb c old = false ->
  remove_char old (c :: s) = c :: remove_char old s.
Proof. intros H. unfold remove_char. cbn [filter]. rewrite H. reflexivity. Qed.

Lemma first_number_at_digits pre d ds r :
  digit_free pre = true -> is_digit d = true ->
  first_number (pre ++ (d :: ds) ++ r) = Some (number_at ((d :: ds) ++ r)).
Proof.
  intros Hpre Hd. rewrite first_number_skip by assumption.
  cbn [app first_number]. rewrite Hd. reflexivity.
Qed.

Lemma number_at_fraction ds d1 d2 r :
  forallb is_digit ds = true -> (length ds <= 3)%nat ->
  is_digit d1 = true -> is_digit d2 = true ->
  number_at (ds ++ "."%char :: d1 :: d2 :: r) = ds ++ ["."%char; d1; d2].
Proof.
  intros Hds Hlen Hd1 Hd2. unfold number_at.
  rewrite take_digits_run; [| assumption | assumption | right; reflexivity].
  unfold take_fraction. rewrite Hd1, Hd2. reflexivity.
Qed.

Lemma number_at_whole ds r :
  forallb is_digit ds = true -> (length ds <= 3)%nat ->
  match r with
  | c :: _ => is_digit c = false /\ Ascii.eqb c "." = false
  | [] => True
  end ->
  number_at (ds ++ r) = ds.
Proof.
  intros Hds Hlen Hr. unfold number_at.
  rewrite take_digits_run;
    [| assumption | assumption | right; destruct r; tauto].
  unfold take_fraction. destruct r as [|c [|d1 [|d2 r]]];
    try apply app_nil_r.
  destruct Hr as [_ ->]. apply app_nil_r.
Qed.

Lemma number_at_long a b c d r :
  is_digit a = true -> is_digit b = true -> is_digit c = true ->
  is_digit d = true ->
  number_at (a :: b :: c :: d :: r) = [a; b; c].
Proof.
  intros Ha Hb Hc Hd. unfold number_at.
  change (a :: b :: c :: d :: r) with ([a; b; c] ++ d :: r).
  rewrite take_digits_run;
    [| cbn [forallb]; rewrite Ha, Hb, Hc; reflexivity
     | cbn [length]; lia | left; reflexivity].
  unfold take_fraction.
  assert (Hdot : Ascii.eqb d "." = false) by (apply is_digit_not_dot; auto).
  destruct r as [|x [|y r]]; try apply app_nil_r.
  rewrite Hdot. apply app_nil_r.
Qed.

(** A price with cents after a prefix without digits. *)
Lemma extract_price_with_cents
  (text : string) (pre ds rest : list ascii) (d1 d2 : ascii) :
  list_ascii_of_string text = pre ++ ds ++ "."%char :: d1 :: d2 :: rest ->
  digit_free pre = true ->
  forallb is_digit ds = true -> (1 <= length ds <= 3)%nat ->
  is_digit d1 = true -> is_digit d2 = true ->
  extract_price text
  = Ret (Some (to_float
                 (Qmake (digits_value ds * 100 + digits_value [d1; d2])
                    100))).
Proof.
  intros Htext Hpre Hds Hlen Hd1 Hd2.
  rewrite extract_price_scan, Htext, !remove_char_app.
  rewrite (remove_comma_digits _ Hds).
  rewrite !remove_char_cons_keep
    by first [reflexivity | apply is_digit_eqb_comma; assumption].
  destruct ds as [|d ds]; [simpl in Hlen; lia |].
  cbn [forallb] in Hds. apply andb_prop in Hds. destruct Hds as [Hd Hds].
  rewrite first_number_at_digits
    by first [apply digit_free_remove_char; assumption | assumption].
  rewrite number_at_fraction;
    [| cbn [forallb]; rewrite Hd, Hds; reflexivity | lia
     | assumption | assumption].
  rewrite float_fraction;
    [reflexivity | cbn [forallb]; rewrite Hd, Hds; reflexivity
     | cbn [length]; lia | assumption | assumption].
Qed.

(* ================================================================== *)
(** * The price extractor, exactly *)

(** X1.  [extract_price] reads the first number of the text once the
    commas are removed: from the first digit, at most three digits and
    the two-digit fraction that follows them directly, if any.  It
    answers [None] when the text has no such number, and the value of
    the number otherwise. *)
Theorem extract_price_reads_first_number (text : string) :
  match first_number (remove_char "," (list_ascii_of_string text)) with
  | None => extract_price text = Ret None
  | Some w =>
      plain_price w
      /\ exists q, float w = Ret q /\ extract_price text = Ret (Some q)
  end.
Proof.
  rewrite extract_price_scan.
  destruct (first_number _) as [w |] eqn:Hw; [| reflexivity].
  apply first_number_inv in Hw. destruct Hw as (pre & rest & _ & _ & Hp).
  split; [assumption |].
  destruct (float_plain_price Hp) as (q & Hq & _).
  exists q. rewrite Hq. auto.
Qed.

(** X2.  [extract_price] answers [None] exactly on the texts without a
    digit, the empty text among them. *)
Theorem extract_price_absent_iff_no_digit (text : string) :
  extract_price text = Ret None
  <-> digit_free (list_ascii_of_string text) = true.
Proof.
  rewrite extract_price_scan, <- digit_free_remove_comma,
    <- first_number_none.
  destruct (first_number _) as [w |] eqn:Hw; [| tauto].
  apply first_number_inv in Hw. destruct Hw as (pre & rest & _ & _ & Hp).
  destruct (float_plain_price Hp) as (q & -> & _).
  split; discriminate.
Qed.

(** X3.  A price below 1000 with cents is read exactly, whatever comes
    before its first digit, as long as that has no digit, and whatever
    comes after the cents. *)
Theorem extract_price_exact_with_cents
  (text : string) (pre ds rest : list ascii) (d1 d2 : ascii) :
  list_ascii_of_string text = pre ++ ds ++ "."%char :: d1 :: d2 :: rest ->
  digit_free pre = true ->
  forallb is_digit ds = true -> (1 <= length ds <= 3)%nat ->
  is_digit d1 = true -> is_digit d2 = true ->
  extract_price text
  = Ret (Some (to_float
                 (Qmake (digits_value ds * 100 + digits_value [d1; d2])
                    100))).
Proof.
  intros Htext Hpre Hds Hlen Hd1 Hd2.
  eapply extract_price_with_cents; eassumption.
Qed.

(** X4.  A whole price below 1000 is read exactly when it ends the text
    or is followed by a character that is not a digit, a point or a
    comma. *)
Theorem extract_price_exact_whole
  (text : string) (pre ds rest : list ascii) :
  list_ascii_of_string text = pre ++ ds ++ rest ->
  digit_free pre = true ->
  forallb is_digit ds = true -> (1 <= length ds <= 3)%nat ->
  match rest with
  | c :: _ =>
      is_digit c = false /\ Ascii.eqb c "." = false
      /\ Ascii.eqb c "," = false
  | [] => True
  end ->
  extract_price text = Ret (Some (to_float (Qmake (digits_value ds) 1))).
Proof.
  intros Htext Hpre Hds Hlen Hrest.
  rewrite extract_price_scan, Htext, !remove_char_app.
  rewrite (remove_comma_digits _ Hds).
  destruct ds as [|d ds]; [simpl in Hlen; lia |].
  pose proof Hds as Hall.
  cbn [forallb] in Hds. apply andb_prop in Hds. destruct Hds as [Hd Hds].
  rewrite first_number_at_digits
    by first [apply digit_free_remove_char; assumption | assumption].
  rewrite number_at_whole; [| assumption | lia |].
  - rewrite float_whole; [reflexivity | assumption | cbn [length]; lia].
  - destruct rest as [|c rest]; [exact I |].
    destruct Hrest as (Hc & Hdot & Hcomma).
    rewrite remove_char_cons_keep by assumption. auto.
Qed.

(** X5.  When the first number of the text, commas aside, has four
    digits or more, [extract_price] answers the number made of its
    first three digits. *)
Theorem extract_price_cuts_long_numbers
  (text : string) (pre rest : list ascii) (a b c d : ascii) :
  remove_char "," (list_ascii_of_string text)
  = pre ++ a :: b :: c :: d :: rest ->
  digit_free pre = true ->
  is_digit a = true -> is_digit b = true -> is_digit c = true ->
  is_digit d = true ->
  extract_price text
  = Ret (Some (to_float (Qmake (digits_value [a; b; c]) 1))).
Proof.
  intros Htext Hpre Ha Hb Hc Hd.
  rewrite extract_price_scan, Htext.
  change (pre ++ a :: b :: c :: d :: rest)
    with (pre ++ [a] ++ b :: c :: d :: rest).
  rewrite (@first_number_at_digits pre a [] (b :: c :: d :: rest))
    by assumption.
  cbn [app]. rewrite number_at_long by assumption.
  rewrite float_whole;
    [reflexivity | cbn [forallb]; rewrite Ha, Hb, Hc; reflexivity
     | cbn [length]; lia].
Qed.

(* ================================================================== *)
(** * What the scrapers append *)

Section AppendFacts.
Context {tag : Type} {soup_api : Bs4 tag}.
Variable http_get : string -> outcome tag.

Lemma yields_scraped brand category product prices r :
  yields brand category product prices r -> scraped brand category r.
Proof.
  intros (ne & name & elems & m & lo & _ & _ & _ & Hp & Hne & Hm & Hlo & ->).
  apply collect_prices_priced in Hp. destruct Hp as (new & -> & Hall).
  cbn [app] in *. rewrite Forall_forall in Hall.
  destruct (@py_max_greatest _ _ Hm) as [Hmin Hmle].
  destruct (@py_min_least _ _ Hlo) as [Hloin Hlole].
  split; [reflexivity |]. split; [reflexivity |].
  exists m. split; [reflexivity |]. split; [apply Hall; assumption |].
  intros s Hs. unfold listing_record in Hs. cbn [Sale_Price] in Hs.
  destruct (1 <? length new)%nat; [| discriminate].
  injection Hs as <-. split; [apply Hall | apply Hlole]; assumption.
Qed.

Lemma for_each_listing_appends brand category products : forall st,
  exists new,
    for_each products (scrape_listing brand category) st = (Ret tt, st ++ new)
    /\ (length new <= length products)%nat
    /\ Forall (scraped brand category) new.
Proof.
  induction products as [|p ps IH]; intros st.
  - exists []. rewrite app_nil_r. repeat split; auto.
  - cbn [for_each]. unfold bind.
    destruct (@scrape_listing_cases _ _ brand category p)
      as [H | (prices & r & Hy & H)]; rewrite H.
    + destruct (IH st) as (new & -> & Hlen & Hall).
      exists new. cbn [length]. repeat split; auto.
    + destruct (IH (st ++ [r])) as (new & -> & Hlen & Hall).
      exists (r :: new). rewrite <- app_assoc. cbn [length app].
      split; [reflexivity |]. split; [lia |].
      constructor; [apply (yields_scraped Hy) | assumption].
Qed.

Lemma scrape_category_appends brand category url st :
  exists o new,
    scrape_category http_get brand (category, url) st = (o, st ++ new)
    /\ (length new <= 10)%nat
    /\ Forall (scraped brand category) new
    /\ (o = Ret tt \/ new = []).
Proof.
  unfold scrape_category.
  destruct (fetch_page http_get url) as [soup |].
  - unfold bind, lift.
    destruct (find_all soup ["div"; "article"] listing_class)
      as [products | e].
    + destruct (for_each_listing_appends brand category
                  (firstn 10 products) st) as (new & -> & Hlen & Hall).
      exists (Ret tt), new. split; [reflexivity |].
      split; [| auto].
      pose proof (firstn_le_length 10 products). lia.
    + exists (Raise e), []. rewrite app_nil_r. cbn [length].
      repeat split; auto; lia.
  - exists (Ret tt), []. rewrite app_nil_r. cbn [length].
    repeat split; auto; lia.
Qed.

Lemma scrape_site_appends brand category_urls : forall st,
  exists o new,
    scrape_site http_get brand category_urls st = (o, st ++ new)
    /\ (length new <= 10 * length category_urls)%nat
    /\ Forall (fun r => exists category,
                   In category (map fst category_urls)
                   /\ scraped brand category r) new.
Proof.
  unfold scrape_site.
  induction category_urls as [|[category url] rest IH]; intros st.
  - exists (Ret tt), []. rewrite app_nil_r. cbn [length].
    repeat split; auto; lia.
  - cbn [for_each]. unfold bind.
    destruct (scrape_category_appends brand category url st)
      as (o & new & -> & Hlen & Hall & _).
    destruct o as [[] | e].
    + destruct (IH (st ++ new)) as (o' & new' & -> & Hlen' & Hall').
      exists o', (new ++ new'). rewrite app_assoc.
      split; [reflexivity |].
      split; [rewrite length_app; cbn [length]; lia |].
      apply Forall_app. split.
      * eapply Forall_impl; [| exact Hall].
        intros r Hr. exists category. cbn [map fst].
        split; [left; reflexivity | assumption].
      * eapply Forall_impl; [| exact Hall'].
        intros r (c & Hc & Hr). exists c. cbn [map].
        split; [right; assumption | assumption].
    + exists (Raise e), new. split; [reflexivity |].
      split; [cbn [length]; lia |].
      eapply Forall_impl; [| exact Hall].
      intros r Hr. exists category. cbn [map fst].
      split; [left; reflexivity | assumption].
Qed.

Lemma scrape_site_all_refused brand category_urls st :
  (forall url, fetch_page http_get url = None) ->
  scrape_site http_get brand category_urls st = (Ret tt, st).
Proof.
  intros Hf. unfold scrape_site.
  induction category_urls as [|[category url] rest IH]; [reflexivity |].
  cbn [for_each]. unfold bind, scrape_category. rewrite Hf. exact IH.
Qed.
End AppendFacts.

(* ================================================================== *)
(** * The scrapers and the run *)

Section ScraperExtras.
Context {tag : Type} {soup_api : Bs4 tag}.
Variable http_get : string -> outcome tag.

(** X6.  A category page adds at most ten records to the products, all
    tagged with the scraper's brand and the category of the page; what
    was collected before stays in place, also when selecting the
    listings of the page raises. *)
Theorem category_appends_at_most_ten
  (brand category url : string) (st : list ProductRecord) :
  exists new,
    snd (scrape_category http_get brand (category, url) st) = st ++ new
    /\ (length new <= 10)%nat
    /\ Forall (scraped brand category) new.
Proof.
  destruct (scrape_category_appends http_get brand category url st)
    as (o & new & -> & Hlen & Hall & _).
  exists new. auto.
Qed.

(** X7.  A scraping run only appends: the products it starts from stay
    at the front, at most 110 records are added, and every added
    record carries one of the three brands, one of the five categories
    of the monitor and an MSRP. *)
Theorem run_appends_tagged_records
  (json_load : string -> outcome (list ProductRecord)) (fs : files)
  (st : list ProductRecord) :
  exists new,
    snd (run http_get json_load fs false st) = st ++ new
    /\ (length new <= 110)%nat
    /\ Forall (fun r => In (Brand r) brands
                        /\ In (Category r) categories
                        /\ MSRP r <> None) new.
Proof.
  assert (Htag : forall brand (urls : list (string * string)) r,
             In brand brands ->
             (forall c, In c (map fst urls) -> In c categories) ->
             (exists category,
                 In category (map fst urls) /\ scraped brand category r) ->
             In (Brand r) brands /\ In (Category r) categories
             /\ MSRP r <> None).
  { intros brand urls r Hb Hc (c & Hin & -> & -> & m & -> & _).
    split; [assumption |]. split; [apply Hc; assumption | discriminate]. }
  assert (Hb : forall c, In c (map fst bowflex_urls) -> In c categories).
  { intros c Hc. vm_compute in Hc. vm_compute. tauto. }
  assert (Hh : forall c, In c (map fst horizon_urls) -> In c categories).
  { intros c Hc. vm_compute in Hc. vm_compute. tauto. }
  assert (Hs : forall c, In c (map fst schwinn_urls) -> In c categories).
  { intros c Hc. vm_compute in Hc. vm_compute. tauto. }
  unfold run, scrape_bowflex, scrape_horizon, scrape_schwinn, bind.
  destruct (scrape_site_appends http_get "Bowflex" bowflex_urls st)
    as (o1 & n1 & -> & L1 & A1).
  change (length bowflex_urls) with 5%nat in L1.
  assert (T1 : Forall (fun r => In (Brand r) brands
                                /\ In (Category r) categories
                                /\ MSRP r <> None) n1).
  { eapply Forall_impl; [| exact A1]. intros r Hr.
    apply (Htag "Bowflex"%string bowflex_urls);
      [vm_compute; tauto | exact Hb | exact Hr]. }
  destruct o1 as [[] | e]; [| exists n1; cbn [snd]; repeat split; auto; lia].
  destruct (scrape_site_appends http_get "Horizon Fitness" horizon_urls
              (st ++ n1)) as (o2 & n2 & -> & L2 & A2).
  change (length horizon_urls) with 3%nat in L2.
  assert (T2 : Forall (fun r => In (Brand r) brands
                                /\ In (Category r) categories
                                /\ MSRP r <> None) n2).
  { eapply Forall_impl; [| exact A2]. intros r Hr.
    apply (Htag "Horizon Fitness"%string horizon_urls);
      [vm_compute; tauto | exact Hh | exact Hr]. }
  destruct o2 as [[] | e].
  - destruct (scrape_site_appends http_get "Schwinn" schwinn_urls
                ((st ++ n1) ++ n2)) as (o3 & n3 & -> & L3 & A3).
    change (length schwinn_urls) with 3%nat in L3.
    exists (n1 ++ n2 ++ n3). cbn [snd].
    split; [rewrite !app_assoc; reflexivity |].
    split; [rewrite !length_app; lia |].
    apply Forall_app. split; [assumption |].
    apply Forall_app. split; [assumption |].
    eapply Forall_impl; [| exact A3]. intros r Hr.
    apply (Htag "Schwinn"%string schwinn_urls);
      [vm_compute; tauto | exact Hs | exact Hr].
  - exists (n1 ++ n2). cbn [snd].
    split; [rewrite app_assoc; reflexivity |].
    split; [rewrite length_app; lia |].
    apply Forall_app. auto.
Qed.

(** A run that cannot fetch a page. *)
Lemma run_scraping_refused
  (json_load : string -> outcome (list ProductRecord)) (fs : files)
  (st : list ProductRecord) :
  (forall url, fetch_page http_get url = None) ->
  run http_get json_load fs false st = (Ret tt, st).
Proof.
  intros Hf. unfold run, scrape_bowflex, scrape_horizon, scrape_schwinn, bind.
  rewrite !(scrape_site_all_refused _ _ _ _ Hf). reflexivity.
Qed.

(** X8.  When no page can be fetched, a scraping run returns normally
    and leaves the products as they were. *)
Theorem run_without_pages_changes_nothing
  (json_load : string -> outcome (list ProductRecord)) (fs : files)
  (st : list ProductRecord) :
  (forall url, fetch_page http_get url = None) ->
  run http_get json_load fs false st = (Ret tt, st).
Proof.
  intros Hf. apply run_scraping_refused. exact Hf.
Qed.

(** X9.  The handler of a listing does not cover the selection of the
    listings of a page: when that selection raises, the exception
    leaves the scraper, and the categories after the page are not
    visited. *)
Theorem page_selection_error_escapes
  (brand category url : string) (before after : list (string * string))
  (soup : tag) (e : exn) (st : list ProductRecord) :
  fetch_page http_get url = Some soup ->
  find_all soup ["div"; "article"] listing_class = Raise e ->
  scrape_site http_get brand (before ++ (category, url) :: after) st
  = match scrape_site http_get brand before st with
    | (Ret _, st') => (Raise e, st')
    | (Raise e', st') => (Raise e', st')
    end.
Proof.
  intros Hf He. unfold scrape_site. revert st.
  induction before as [|entry rest IH]; intros st.
  - cbn [app for_each]. unfold bind, scrape_category at 1.
    rewrite Hf. unfold bind, lift. rewrite He. reflexivity.
  - cbn [app for_each]. unfold bind.
    destruct (scrape_category http_get brand entry st) as [[[] | e'] st'];
      [apply IH | reflexivity].
Qed.

(** An address without the [http] prefix is fetched as the
    address with [https://] before it. *)
Theorem fetch_page_adds_scheme (url : string) :
  String.prefix "http" url = false ->
  fetch_page http_get url = fetch_page http_get ("https://" ++ url)%string.
Proof.
  intros H. unfold fetch_page. rewrite H. reflexivity.
Qed.
End ScraperExtras.

(* ================================================================== *)
(** * Loading and saving, further *)

Section PersistenceExtras.
Variable json_dump : list ProductRecord -> string.
Variable json_load : string -> outcome (list ProductRecord).

(** What loading a file does to the products. *)
Lemma load_from_file_only_appends_lemma
  (filename : string) (fs : files) (st : list ProductRecord) :
  exists new,
    load_from_file json_load filename fs st = (Ret tt, st ++ new)
    /\ (fs filename = None -> new = [])
    /\ (forall contents e,
           fs filename = Some contents ->
           json_load contents = Raise e -> new = [])
    /\ (forall contents data,
           fs filename = Some contents ->
           json_load contents = Ret data -> new = data).
Proof.
  unfold load_from_file, try_except.
  destruct (fs filename) as [contents |] eqn:Hfs.
  - unfold bind, lift, extend.
    destruct (json_load contents) as [data | e] eqn:Hj.
    + exists data. split; [reflexivity |].
      split; [discriminate |]. split.
      * intros c e H. injection H as <-. rewrite Hj. discriminate.
      * intros c d H. injection H as <-. rewrite Hj. intros H.
        injection H as <-. reflexivity.
    + exists []. rewrite app_nil_r.
      split; [destruct e; reflexivity |]. split; [reflexivity |].
      split; [reflexivity |].
      intros c d H. injection H as <-. rewrite Hj. discriminate.
  - exists []. rewrite app_nil_r. cbn [lift].
    split; [reflexivity |]. split; [reflexivity |].
    split; intros c x H; discriminate.
Qed.

(** X10.  Loading a file never raises and never drops a product: the
    records of the file are added after the products already there,
    and a file that is missing or cannot be decoded adds nothing. *)
Theorem load_from_file_only_appends
  (filename : string) (fs : files) (st : list ProductRecord) :
  exists new,
    load_from_file json_load filename fs st = (Ret tt, st ++ new)
    /\ (fs filename = None -> new = [])
    /\ (forall contents e,
           fs filename = Some contents ->
           json_load contents = Raise e -> new = [])
    /\ (forall contents data,
           fs filename = Some contents ->
           json_load contents = Ret data -> new = data).
Proof.
  destruct (load_from_file_only_appends_lemma filename fs st)
    as (new & H). exists new. exact H.
Qed.

(** X11.  Loading extends, it does not replace: saving the products and
    loading the file back into the same monitor leaves every record
    twice in the collection. *)
Theorem save_then_load_doubles
  (filename : string) (fs : files) (products : list ProductRecord) :
  json_load (json_dump products) = Ret products ->
  exists fs',
    save_to_json json_dump filename fs products = (Ret fs', products)
    /\ load_from_file json_load filename fs' products
       = (Ret tt, products ++ products).
Proof.
  intros Hjson. exists (write fs filename (json_dump products)).
  split; [reflexivity |].
  unfold load_from_file, write, try_except. rewrite String.eqb_refl.
  unfold bind, lift, extend. rewrite Hjson. reflexivity.
Qed.
End PersistenceExtras.

(* ================================================================== *)
(** * Printing a price *)

Lemma to_float_eq q q' : Qeq q q' -> to_float q = to_float q'.
Proof.
  intros H. unfold to_float. rewrite (Qred_complete _ _ H). reflexivity.
Qed.

Lemma cents_value n : Qeq (this (cents n)) (Qmake n 100).
Proof.
  unfold cents, to_float, Q2Qc. cbn [this]. rewrite !Qred_correct.
  reflexivity.
Qed.

Lemma round_half_even_comp x y :
  Qeq x y -> round_half_even x = round_half_even y.
Proof.
  intros H. unfold round_half_even.
  rewrite (Qfloor_comp _ _ H).
  assert (Hc : Qcompare (x - inject_Z (Qfloor y)) (Qmake 1 2)
               = Qcompare (y - inject_Z (Qfloor y)) (Qmake 1 2)).
  { apply Qcompare_comp; [rewrite H |]; reflexivity. }
  rewrite Hc. reflexivity.
Qed.

Lemma round_half_even_Z n : round_half_even (inject_Z n) = n.
Proof.
  unfold round_half_even. rewrite Qfloor_Z.
  assert (Hc : Qcompare (inject_Z n - inject_Z n) (Qmake 1 2) = Lt).
  { rewrite (Qcompare_comp (inject_Z n - inject_Z n)%Q (inject_Z 0)
               (Qplus_opp_r _) (Qmake 1 2) (Qmake 1 2) (Qeq_refl _)).
    reflexivity. }
  rewrite Hc. reflexivity.
Qed.

Lemma cents_hundredths n :
  (0 <= n)%Z ->
  round_half_even (Qabs (this (cents n)) * inject_Z 100) = n.
Proof.
  intros Hn. rewrite <- (round_half_even_Z n) at 2.
  apply round_half_even_comp.
  rewrite (cents_value n).
  rewrite Qabs_pos by (unfold Qle; cbn [Qnum Qden]; lia).
  unfold Qeq, Qmult, inject_Z. cbn [Qnum Qden]. lia.
Qed.

Lemma cents_not_negative n :
  (0 <= n)%Z -> Qcompare (this (cents n)) (inject_Z 0) <> Lt.
Proof.
  intros Hn H. apply Qlt_alt in H. rewrite (cents_value n) in H.
  unfold Qlt, inject_Z in H. cbn [Qnum Qden] in H. lia.
Qed.

(** The text of a price of [n] cents. *)
Lemma format_fixed_cents n :
  (0 <= n)%Z ->
  format_fixed (cents n)
  = thousands (str_Z (n / 100))
    ++ "."%char
    :: [digit_char (n mod 100 / 10); digit_char (n mod 100 mod 10)].
Proof.
  intros Hn. unfold format_fixed. rewrite (cents_hundredths Hn).
  pose proof (cents_not_negative Hn) as Hs.
  destruct (Qcompare (this (cents n)) (inject_Z 0));
    [reflexivity | contradiction | reflexivity].
Qed.

Lemma digit_char_spec x :
  (0 <= x <= 9)%Z ->
  is_digit (digit_char x) = true /\ digit_value (digit_char x) = x.
Proof.
  intros Hx.
  assert (H : (x = 0 \/ x = 1 \/ x = 2 \/ x = 3 \/ x = 4 \/ x = 5
               \/ x = 6 \/ x = 7 \/ x = 8 \/ x = 9)%Z) by lia.
  repeat (destruct H as [-> | H]; [split; reflexivity |]).
  subst x. split; reflexivity.
Qed.

Lemma small_digits_checked :
  forallb small_digits_ok (map Z.of_nat (seq 0 1000)) = true.
Proof. vm_compute. reflexivity. Qed.

Lemma small_digits k :
  (0 <= k < 1000)%Z ->
  let ds := str_Z k in
  (1 <= length ds <= 3)%nat /\ forallb is_digit ds = true
  /\ digits_value ds = k /\ thousands ds = ds.
Proof.
  intros Hk ds.
  assert (Hin : In k (map Z.of_nat (seq 0 1000))).
  { rewrite <- (Z2Nat.id k) by lia. apply in_map. apply in_seq. lia. }
  pose proof small_digits_checked as Hall.
  rewrite forallb_forall in Hall. apply Hall in Hin.
  unfold small_digits_ok in Hin. fold ds in Hin.
  repeat (apply andb_prop in Hin; destruct Hin as [Hin ?]).
  apply Nat.leb_le in Hin.
  match goal with H : (_ <=? 3)%nat = true |- _ => apply Nat.leb_le in H end.
  match goal with H : (_ =? k)%Z = true |- _ => apply Z.eqb_eq in H end.
  match goal with
  | H : String.eqb _ _ = true |- _ =>
      apply String.eqb_eq in H;
      apply (f_equal list_ascii_of_string) in H;
      rewrite !list_ascii_of_string_of_list_ascii in H
  end.
  auto.
Qed.

(** The text of a price of at most 999.99: a dollar sign, one to three
    digits, a point and two digits. *)
Lemma format_price_small n :
  (0 <= n <= 99999)%Z ->
  exists ds d1 d2,
    list_ascii_of_string (format_price (Some (cents n)))
    = "$"%char :: ds ++ ["."%char; d1; d2]
    /\ (1 <= length ds <= 3)%nat /\ forallb is_digit ds = true
    /\ is_digit d1 = true /\ is_digit d2 = true
    /\ (digits_value ds * 100 + digits_value [d1; d2])%Z = n.
Proof.
  intros Hn. unfold format_price.
  rewrite list_ascii_of_string_of_list_ascii, format_fixed_cents by lia.
  assert (Hk : (0 <= n / 100 < 1000)%Z).
  { split; [apply Z.div_pos; lia | apply Z.div_lt_upper_bound; lia]. }
  pose proof (Z.mod_pos_bound n 100 ltac:(lia)) as Hf.
  assert (Hx1 : (0 <= n mod 100 / 10 <= 9)%Z).
  { split; [apply Z.div_pos; lia |].
    apply Z.lt_succ_r. apply Z.div_lt_upper_bound; lia. }
  pose proof (Z.mod_pos_bound (n mod 100) 10 ltac:(lia)) as Hx2.
  destruct (small_digits Hk) as (Hlen & Hds & Hv & ->).
  destruct (digit_char_spec Hx1) as [Hd1 Hv1].
  destruct (@digit_char_spec (n mod 100 mod 10)%Z ltac:(lia)) as [Hd2 Hv2].
  exists (str_Z (n / 100)), (digit_char (n mod 100 / 10)),
    (digit_char (n mod 100 mod 10)).
  split; [reflexivity |]. repeat (split; [assumption |]).
  rewrite Hv.
  change (digits_value [digit_char (n mod 100 / 10);
                        digit_char (n mod 100 mod 10)])
    with (10 * (10 * 0 + digit_value (digit_char (n mod 100 / 10)))
          + digit_value (digit_char (n mod 100 mod 10)))%Z.
  rewrite Hv1, Hv2.
  pose proof (Z.div_mod n 100 ltac:(lia)).
  pose proof (Z.div_mod (n mod 100) 10 ltac:(lia)). lia.
Qed.

(** X12.  A price of at most 999.99 that [format_price] has printed is
    read back by [extract_price] as the same price. *)
Theorem format_then_extract_price (n : Z) :
  (0 <= n <= 99999)%Z ->
  extract_price (format_price (Some (cents n))) = Ret (Some (cents n)).
Proof.
  intros Hn.
  destruct (format_price_small Hn)
    as (ds & d1 & d2 & Htext & Hlen & Hds & Hd1 & Hd2 & Hv).
  rewrite (@extract_price_with_cents _ ["$"%char] ds [] d1 d2 Htext);
    try assumption; [| reflexivity].
  unfold cents. rewrite Hv. reflexivity.
Qed.

(* ================================================================== *)
(** * Collected prices are whole cents *)

Lemma float_plain_cents w :
  plain_price w ->
  exists n, (0 <= n <= 99999)%Z /\ float w = Ret (cents n).
Proof.
  intros (ds & fr & -> & Hlen & Hds & Hfr).
  pose proof (digits_value_range ds Hds ltac:(lia)) as Hiv.
  destruct Hfr as [-> | (d1 & d2 & -> & Hd1 & Hd2)].
  - exists (digits_value ds * 100)%Z. split; [lia |].
    rewrite app_nil_r, float_whole by (assumption || lia).
    f_equal. apply to_float_eq. unfold Qeq. cbn [Qnum Qden]. lia.
  - exists (digits_value ds * 100 + digits_value [d1; d2])%Z.
    rewrite float_fraction by (assumption || lia).
    split; [| reflexivity].
    apply digit_value_range in Hd1, Hd2.
    change (digits_value [d1; d2])
      with (10 * (10 * 0 + digit_value d1) + digit_value d2)%Z.
    lia.
Qed.

Lemma extract_price_cents t q :
  extract_price t = Ret (Some q) ->
  exists n, (0 <= n <= 99999)%Z /\ q = cents n.
Proof.
  rewrite extract_price_scan.
  destruct (first_number _) as [w |] eqn:Hw; [| discriminate].
  apply first_number_inv in Hw. destruct Hw as (pre & rest & _ & _ & Hp).
  destruct (float_plain_cents Hp) as (n & Hn & ->).
  intros H. injection H as <-. eauto.
Qed.

Lemma truthy_in_cents t x :
  extract_price t = Ret (Some x) -> truthy (Some x) = true -> in_cents x.
Proof.
  intros He Ht. destruct (extract_price_cents _ He) as (n & Hn & ->).
  exists n. split; [| reflexivity].
  assert (n <> 0)%Z; [| lia].
  intros ->. cbn [truthy] in Ht. unfold Qc_eq_bool in Ht.
  destruct (Qc_eq_dec (cents 0) (cents 0)) as [_ | Hne];
    [discriminate | apply Hne; reflexivity].
Qed.

Section CentsFacts.
Context {tag : Type} {soup_api : Bs4 tag}.

Lemma collect_prices_in_cents elems : forall acc prices,
  fst (collect_prices elems acc []) = Ret prices ->
  exists new, prices = acc ++ new /\ Forall in_cents new.
Proof.
  induction elems as [|e rest IH]; intros acc prices; simpl.
  - intros H. injection H as <-. exists []. rewrite app_nil_r. auto.
  - run_monitor.
    destruct (get_text e) as [t |]; [| discriminate].
    destruct (extract_price t) as [[x |] |] eqn:E;
      [| apply IH | discriminate].
    destruct (truthy (Some x)) eqn:Ht; [| apply IH].
    intros H. apply IH in H. destruct H as (new & -> & Hnew).
    exists (x :: new). rewrite <- app_assoc. split; [reflexivity |].
    constructor; [apply (truthy_in_cents _ E Ht) | assumption].
Qed.

(** The prices of the record of a listing are whole cents. *)
Lemma yields_in_cents brand category product prices r :
  yields brand category product prices r ->
  (exists m, MSRP r = Some m /\ in_cents m)
  /\ (Sale_Price r = None \/ exists s, Sale_Price r = Some s /\ in_cents s).
Proof.
  intros (ne & name & elems & m & lo & _ & _ & _ & Hp & Hne & Hm & Hlo & ->).
  apply collect_prices_in_cents in Hp. destruct Hp as (new & -> & Hall).
  cbn [app] in *. rewrite Forall_forall in Hall.
  destruct (@py_max_greatest _ _ Hm) as [Hmin _].
  destruct (@py_min_least _ _ Hlo) as [Hloin _].
  split; [exists m; split; [reflexivity | auto] |].
  unfold listing_record. cbn [Sale_Price].
  destruct (1 <? length new)%nat; [right | left; reflexivity].
  exists lo. auto.
Qed.
End CentsFacts.

(* ================================================================== *)
(** * The lines of the report *)

Lemma length_list_ascii_of_string s :
  length (list_ascii_of_string s) = String.length s.
Proof. induction s as [|c s IH]; simpl; congruence. Qed.

Lemma ljust_length width s :
  length (ljust width s) = Nat.max width (length s).
Proof. unfold ljust. rewrite length_app, repeat_length. lia. Qed.

Lemma format_price_width price :
  price = None \/ (exists q, price = Some q /\ in_cents q) ->
  (length (list_ascii_of_string (format_price price)) <= 12)%nat.
Proof.
  intros [-> | (q & -> & n & Hn & ->)]; [cbn; lia |].
  destruct (@format_price_small n ltac:(lia))
    as (ds & d1 & d2 & -> & Hlen & _).
  cbn [length]. rewrite length_app. cbn [length]. lia.
Qed.

Lemma truncated_length (limit : nat) (s : text) :
  (2 <= limit)%nat ->
  (length (if (limit <? length s)%nat
           then firstn (limit - 2) s ++ list_ascii_of_string ".."
           else s) <= limit)%nat.
Proof.
  intros Hl. destruct (Nat.ltb_spec limit (length s)) as [Hlt | Hge];
    [| assumption].
  rewrite length_app, length_firstn. cbn [length list_ascii_of_string]. lia.
Qed.

Lemma display_row_length r :
  (length (list_ascii_of_string (format_price (MSRP r))) <= 12)%nat ->
  (length (list_ascii_of_string (format_price (Sale_Price r))) <= 12)%nat ->
  length (display_row r)
  = (93 + Nat.max 20 (String.length (Brand r)))%nat.
Proof.
  intros Hm Hs. unfold display_row.
  pose proof (@truncated_length 40 (list_ascii_of_string (Product r))
                ltac:(lia)) as Hname.
  pose proof (@truncated_length 25 (list_ascii_of_string (Category r))
                ltac:(lia)) as Hcat.
  cbn [Nat.sub] in Hname, Hcat.
  repeat (rewrite length_app || rewrite ljust_length || cbn [length]).
  rewrite length_list_ascii_of_string with (s := Brand r). lia.
Qed.

Section ReportExtras.
Context {tag : Type} {soup_api : Bs4 tag}.

(** X13.  The line of a scraped record is 93 characters wide plus the
    brand column: 113 characters for a brand of at most 20, as wide as
    the header and 13 more than the rules; a longer brand is printed
    whole and widens the line. *)
Theorem scraped_row_width
  (brand category : string) (product : tag)
  (st : list ProductRecord) (r : ProductRecord) :
  snd (scrape_listing brand category product st) = st ++ [r] ->
  length (display_row r) = (93 + Nat.max 20 (String.length brand))%nat
  /\ length header = 113%nat /\ length rule = 100%nat.
Proof.
  intros Hr. apply scrape_listing_record in Hr. destruct Hr as (prices & Hy).
  pose proof (yields_scraped Hy) as (Hb & _).
  destruct (yields_in_cents Hy) as ((m & Hm & Hmc) & Hs).
  split; [| split; reflexivity].
  rewrite <- Hb. apply display_row_length; apply format_price_width.
  - right. eauto.
  - destruct Hs as [-> | Hs]; [left; reflexivity | right; exact Hs].
Qed.
End ReportExtras.

(** X14.  The product column of a line is exactly 40 characters wide
    and followed by a blank: a name of at most 40 characters is shown
    whole and padded, a longer one is cut to its first 38 characters
    and two points. *)
Theorem name_column_is_forty_wide (r : ProductRecord) :
  let name := list_ascii_of_string (Product r) in
  exists col rest,
    display_row r = col ++ " "%char :: rest
    /\ length col = 40%nat
    /\ ((length name <= 40)%nat ->
        col = name ++ repeat " "%char (40 - length name))
    /\ ((40 < length name)%nat ->
        col = firstn 38 name ++ list_ascii_of_string "..").
Proof.
  intros name. unfold display_row. fold name.
  pose proof (@truncated_length 40 name ltac:(lia)) as Hlen.
  cbn [Nat.sub] in Hlen.
  eexists. eexists. split; [reflexivity |].
  split; [rewrite ljust_length; lia |].
  destruct (Nat.ltb_spec 40 (length name)) as [Hlt | Hge]; split;
    intros H; try lia.
  - unfold ljust. rewrite length_app, length_firstn.
    cbn [length list_ascii_of_string].
    replace (40 - (Nat.min 38 (length name) + 2))%nat with 0%nat by lia.
    apply app_nil_r.
  - reflexivity.
Qed.

(* ================================================================== *)
(** * The entry point *)

Section MainExtras.
Context {tag : Type} {soup_api : Bs4 tag}.
Variable http_get : string -> outcome tag.
Variable json_dump : list ProductRecord -> string.
Variable json_load : string -> outcome (list ProductRecord).

(** X15.  In sample mode, with a sample file that decodes to a
    collection that is not empty, [main] ends with that collection and
    writes it, and nothing else, to [products.json]. *)
Theorem main_sample_copies_collection
  (fs : files) (contents : string) (data : list ProductRecord) :
  fs "sample_products.json" = Some contents ->
  json_load contents = Ret data ->
  data <> [] ->
  main http_get json_dump json_load fs true
  = (Ret (write fs "products.json" (json_dump data)), data).
Proof.
  intros Hfs Hj Hne. unfold main, run, bind.
  destruct (load_from_file_only_appends_lemma json_load
              "sample_products.json" fs [])
    as (new & -> & _ & _ & Hdata).
  rewrite (Hdata _ _ Hfs Hj). cbn [app].
  destruct data as [|r data]; [contradiction | reflexivity].
Qed.

(** X16.  When nothing was collected, [main] writes no file: in sample
    mode when the sample file is missing or cannot be decoded, and
    when scraping while no page can be fetched. *)
Theorem main_writes_nothing_without_products (fs : files) (sample : bool) :
  (if sample
   then fs "sample_products.json" = None
        \/ exists contents e,
             fs "sample_products.json" = Some contents
             /\ json_load contents = Raise e
   else forall url, fetch_page http_get url = None) ->
  main http_get json_dump json_load fs sample = (Ret fs, []).
Proof.
  destruct sample; intros H; unfold main, bind.
  - unfold run.
    destruct (load_from_file_only_appends_lemma json_load
                "sample_products.json" fs [])
      as (new & -> & Hnone & Hraise & _).
    assert (new = []) as ->; [| reflexivity].
    destruct H as [H | (c & e & Hc & He)];
      [apply Hnone; assumption | apply (Hraise _ _ Hc He)].
  - rewrite run_scraping_refused by assumption. reflexivity.
Qed.
End MainExtras.

(* ================================================================== *)
(** * The further statements at sample inputs *)

Section MoreExamples.
Import Samples.

Example format_price_thousands :
  format_price (Some (cents 129999)) = "$1,299.99"
  /\ format_price (Some (cents 5)) = "$0.05"
  /\ format_price None = "N/A".
Proof. repeat split; vm_compute; reflexivity. Qed.

(** Above 999.99 the comma that [format_price] prints is in the way. *)
Example format_then_extract_thousands :
  extract_price (format_price (Some (cents 129999)))
  = Ret (Some (cents 12900)).
Proof. vm_compute. reflexivity. Qed.

Example display_results_empty :
  display_results [] = [""; "No products found."]%string.
Proof. reflexivity. Qed.

Lemma extract_price_exact_with_cents_witness :
  extract_price "Now $129.99 each" = Ret (Some (cents 12999)).
Proof.
  apply (@extract_price_exact_with_cents "Now $129.99 each"
           (list_ascii_of_string "Now $") (list_ascii_of_string "129")
           (list_ascii_of_string " each") "9" "9");
    first [reflexivity | cbn; lia].
Defined.

Lemma extract_price_exact_whole_witness :
  extract_price "From 899 USD" = Ret (Some (cents 89900)).
Proof.
  rewrite (@extract_price_exact_whole "From 899 USD"
             (list_ascii_of_string "From ") (list_ascii_of_string "899")
             (list_ascii_of_string " USD"));
    first [reflexivity | cbn; lia | cbn; auto].
Defined.

Lemma extract_price_cuts_long_numbers_witness :
  extract_price "12,999 dollars" = Ret (Some (cents 12900)).
Proof.
  rewrite (@extract_price_cuts_long_numbers "12,999 dollars"
             [] (list_ascii_of_string "9 dollars") "1" "2" "9" "9");
    reflexivity.
Defined.

Lemma run_without_pages_changes_nothing_witness :
  run (soup_api := Dom.dom) (refuse_all Dom.node) load_empty
    (fun _ => None) false [model_a]
  = (Ret tt, [model_a]).
Proof.
  apply (@run_without_pages_changes_nothing Dom.node Dom.dom).
  intros url. reflexivity.
Defined.

Lemma page_selection_error_escapes_witness :
  scrape_site (soup_api := broken_page) (fun _ => Ret two_listings)
    "Bowflex"
    ([] ++ ("Treadmills", "https://www.bowflex.com/treadmills/")
        :: [("Home Gyms", "https://www.bowflex.com/strength/")]) []
  = (Raise AttributeError, []).
Proof.
  apply (@page_selection_error_escapes Dom.node broken_page
           (fun _ => Ret two_listings) "Bowflex" "Treadmills"
           "https://www.bowflex.com/treadmills/" []
           [("Home Gyms", "https://www.bowflex.com/strength/")]
           two_listings AttributeError []);
    reflexivity.
Defined.

Lemma fetch_page_adds_scheme_witness :
  fetch_page bikes_refused "www.bowflex.com/bikes/"
  = fetch_page bikes_refused "https://www.bowflex.com/bikes/".
Proof.
  apply (@fetch_page_adds_scheme Dom.node bikes_refused
           "www.bowflex.com/bikes/").
  reflexivity.
Defined.

Lemma save_then_load_doubles_witness :
  exists fs',
    save_to_json dump_model_a "products.json" (fun _ => None) [model_a]
    = (Ret fs', [model_a])
    /\ load_from_file load_model_a "products.json" fs' [model_a]
       = (Ret tt, [model_a] ++ [model_a]).
Proof.
  apply (@save_then_load_doubles dump_model_a load_model_a).
  reflexivity.
Defined.

Lemma format_then_extract_price_witness :
  extract_price (format_price (Some (cents 79900)))
  = Ret (Some (cents 79900)).
Proof. apply format_then_extract_price. lia. Defined.

Lemma scraped_row_width_witness :
  length (display_row model_a)
  = (93 + Nat.max 20 (String.length "Bowflex"))%nat
  /\ length header = 113%nat /\ length rule = 100%nat.
Proof.
  apply (@scraped_row_width Dom.node Dom.dom "Bowflex" "Treadmills"
           (listing "Model A" ["$999.00"; "$799.00"]) [] model_a).
  vm_compute. reflexivity.
Defined.

Lemma main_sample_copies_collection_witness :
  main (soup_api := Dom.dom) bikes_refused dump_model_a load_model_a
    (fun name => if String.eqb name "sample_products.json"
                 then Some "[Model A]" else None)
    true
  = (Ret (write
            (fun name => if String.eqb name "sample_products.json"
                         then Some "[Model A]" else None)
            "products.json" (dump_model_a [model_a])),
     [model_a]).
Proof.
  apply (@main_sample_copies_collection Dom.node Dom.dom bikes_refused
           dump_model_a load_model_a _ "[Model A]" [model_a]);
    [reflexivity | reflexivity | discriminate].
Defined.

Lemma main_writes_nothing_without_products_witness :
  main (soup_api := Dom.dom) (refuse_all Dom.node)
    dump_model_a load_model_a (fun _ => None) true
  = (Ret (fun _ => None), [])
  /\ main (soup_api := Dom.dom) (refuse_all Dom.node)
       dump_model_a load_model_a (fun _ => None) false
     = (Ret (fun _ => None), []).
Proof.
  split.
  - apply (@main_writes_nothing_without_products Dom.node Dom.dom
             (refuse_all Dom.node) dump_model_a load_model_a
             (fun _ => None) true).
    left. reflexivity.
  - apply (@main_writes_nothing_without_products Dom.node Dom.dom
             (refuse_all Dom.node) dump_model_a load_model_a
             (fun _ => None) false).
    intros url. reflexivity.
Defined.
End MoreExamples.

(* ================================================================== *)
(** * Decimal digits *)





(* ================================================================== *)
(** * Numbers in a file *)







(* ================================================================== *)
(** * Strings in a file *)




(* ================================================================== *)
(** * Values in a file *)






(* ================================================================== *)
(** * Objects in a file *)











(* ================================================================== *)
(** * Collections in a file *)









(* ================================================================== *)
(** * Saving and loading: claim C9 *)

Lemma in_cents_storable q : in_cents q -> storable_price (Some q).
Proof.
  intros (n & Hn & ->). right. exists n. split; [| reflexivity].
  change (10 ^ 15)%Z with 1000000000000000%Z. lia.
Qed.

Section ScrapedStorable.
Context {tag : Type} {soup_api : Bs4 tag}.

(** The record of a listing has prices that the files hold exactly. *)
Lemma yields_storable brand category (product : tag) prices r :
  yields brand category product prices r -> storable r.
Proof.
  intros Hy. destruct (yields_in_cents Hy) as ((m & Hm & Hmc) & Hs).
  split.
  - rewrite Hm. apply in_cents_storable. assumption.
  - destruct Hs as [-> | (x & -> & Hx)]; [left; reflexivity |].
    apply in_cents_storable. assumption.
Qed.
End ScrapedStorable.


